(** * react-native-big-calendar: the calendar container and its header

    A shallow embedding of [src/components/CalendarContainer.tsx]
    ([_CalendarContainer]) and of the default header component
    ([_CalendarHeader]), and the properties of date navigation, date-range
    selection, event partitioning and header interaction proved about them.

    The date library (dayjs) and the helpers of [../utils] are collaborators
    of the two components: they are interfaces here, and every theorem holds
    for all their implementations.  A reference implementation of both is
    given at the end of the definitions, to run the components on concrete
    inputs. *)

From Stdlib Require Import ZArith QArith Lia Ascii String.
From stdpp Require Import base option list strings.

Set Warnings "-register-all".

Local Open Scope Z_scope.

(** ** JavaScript results *)

Module Js.

(** The two exceptions the components can raise: the [Error] thrown by the
    container itself, and the [TypeError] of a method call on [undefined]. *)
Inductive Exn : Type :=
| Error (message : string)
| TypeError (message : string).

Inductive Result (A : Type) : Type :=
| Return (a : A)
| Throw (e : Exn).
Arguments Return {A} a.
Arguments Throw {A} e.

Definition bind {A B : Type} (r : Result A) (k : A -> Result B) : Result B :=
  match r with
  | Return a => k a
  | Throw e => Throw e
  end.

Definition returns {A : Type} (r : Result A) : Prop := exists a, r = Return a.

End Js.

Global Instance result_ret : MRet Js.Result := @Js.Return.
Global Instance result_bind : MBind Js.Result := fun A B k r => Js.bind r k.

(** ** Interfaces of the collaborators *)

(** dayjs, as far as the two components call it.  [Date] is the JavaScript
    [Date], [Dayjs] the immutable dayjs object; [dayjs(d)] applied to a dayjs
    object is a copy with the same value and is not written. *)
Class DateLib : Type := {
  Date : Type;
  Dayjs : Type;
  (** [dayjs(date)] *)
  dayjs : Date -> Dayjs;
  (** [d.toDate()] *)
  toDate : Dayjs -> Date;
  (** [d.add(n, 'day')] *)
  add_day : Dayjs -> Z -> Dayjs;
  (** [d.isBetween(a, b, 'day', '[]')] *)
  isBetween_day : Dayjs -> Date -> Date -> bool;
}.


(** The helpers imported from [../utils]; [WeekNum] is a number. *)
Class Utils `{DateLib} : Type := {
  getDatesInMonth : Dayjs -> string -> list Dayjs;
  getDatesInWeek : Dayjs -> Z -> string -> list Dayjs;
  getDatesInNextThreeDays : Dayjs -> string -> list Dayjs;
  getDatesInNextOneDay : Dayjs -> string -> list Dayjs;
  getDatesInNextCustomDays : Dayjs -> Z -> Z -> string -> list Dayjs;
  isAllDayEvent : Date -> Date -> bool;
  modeToNum : string -> Dayjs -> Z;
}.

(** [T extends ICalendarEventBase]: the fields the components read. *)
Class ICalendarEventBase `{DateLib} (T : Type) : Type := {
  start : T -> Date;
  end_ : T -> Date;
  title : T -> string;
}.

(** A JavaScript function value: its identity, which is what [Object.is]
    compares in a dependency array, and what calling it does. *)
Record Fn (A B : Type) : Type := { fn_id : nat; call : A -> B }.
Arguments fn_id {A B} f.
Arguments call {A B} f a.

Inductive HorizontalDirection : Type := LEFT | RIGHT.

Global Instance HorizontalDirection_eq_dec : EqDecision HorizontalDirection.
Proof. solve_decision. Defined.

(** [useTheme()]: only the reading direction matters here. *)
Record Theme : Type := { isRTL : bool }.

(** [<TouchableOpacity onPress={...} disabled={...}>]. *)
Record TouchableOpacity (A : Type) : Type := { onPress : A; disabled : bool }.
Arguments onPress {A} t.
Arguments disabled {A} t.

(** A tap on a touchable whose handler performs a list of callback calls:
    a disabled touchable does not fire [onPress]. *)
Definition tap {Eff : Type} (t : TouchableOpacity (list Eff)) : list Eff :=
  if disabled t then [] else onPress t.

(** ** The default header, [_CalendarHeader] *)

Module CalendarHeader.
Section Header.

Context {D : DateLib} {T : Type} {E : ICalendarEventBase T} {Eff Act : Type}.

(** [CalendarHeaderProps<T>], without the style props.  [Act] is what a pan
    handler of the parent does. *)
Record CalendarHeaderProps : Type := {
  dateRange : list Dayjs;
  allDayEvents : list T;
  onPressDateHeader : option (Fn Date Eff);
  onPressEvent : option (Fn T Eff);
  showAllDayEventCell : bool;
  showHeaderPan : bool;
  panLeft : HorizontalDirection -> Act;
  panRight : HorizontalDirection -> Act;
}.

(** The element of one all-day event: its touchable and its text. *)
Record EventElement : Type := {
  event_touch : TouchableOpacity (list Eff);
  event_text : string;
}.

(** The touchable of one date of the range: the day texts are those of
    [cell_date]; [allDayCell] is [None] when the all-day [View] is not
    rendered, and holds one entry per all-day event otherwise, [None] where
    the map callback returned [null]. *)
Record DateCell : Type := {
  cell_touch : TouchableOpacity (list Eff);
  cell_date : Dayjs;
  allDayCell : option (list (option EventElement));
}.

Record HeaderView : Type := {
  panLeftButton : option (TouchableOpacity Act);
  dateCells : list DateCell;
  panRightButton : option (TouchableOpacity Act);
}.

Variable props : CalendarHeaderProps.

(** [onPressDateHeader && onPressDateHeader(date)] *)
Definition _onPressHeader (date : Date) : list Eff :=
  match onPressDateHeader props with
  | Some f => [call f date]
  | None => []
  end.

(** [onPressEvent && onPressEvent(event)] *)
Definition _onPressEvent (event : T) : list Eff :=
  match onPressEvent props with
  | Some f => [call f event]
  | None => []
  end.

(** The callback of [allDayEvents.map] in the cell of [date]. *)
Definition allDayEventElement (date : Dayjs) (event : T) : option EventElement :=
  if negb (isBetween_day date (start event) (end_ event)) then None
  else Some {| event_touch := {| onPress := _onPressEvent event; disabled := false |};
               event_text := title event |}.

(** The callback of [dateRange.map]. *)
Definition dateCell (date : Dayjs) : DateCell :=
  {| cell_touch := {| onPress := _onPressHeader (toDate date);
                      disabled := bool_decide (onPressDateHeader props = None) |};
     cell_date := date;
     allDayCell :=
       if showAllDayEventCell props
       then Some (map (allDayEventElement date) (allDayEvents props))
       else None |}.

Definition _CalendarHeader : HeaderView :=
  {| panLeftButton :=
       if showHeaderPan props
       then Some {| onPress := panLeft props LEFT; disabled := false |}
       else None;
     dateCells := map dateCell (dateRange props);
     panRightButton :=
       if showHeaderPan props
       then Some {| onPress := panRight props RIGHT; disabled := false |}
       else None |}.

(** The element of the [j]-th all-day event in a date cell, if one is
    rendered there. *)
Definition eventShown (cell : DateCell) (j : nat) : option EventElement :=
  match allDayCell cell with
  | Some entries =>
      match entries !! j with
      | Some (Some element) => Some element
      | _ => None
      end
  | None => None
  end.

End Header.

Arguments CalendarHeaderProps {D} T Eff Act.
Arguments EventElement : clear implicits.
Arguments DateCell {D} Eff.
Arguments HeaderView {D} Eff Act.

End CalendarHeader.

(** ** Animations *)

Inductive AnimatedValue : Type := presentFadeAnim | presentLeftValue.

(** [Animated.timing(value, {toValue, duration}).start(onEnd)]: the
    animations of [onEnd] are started when this one ends. *)
Inductive Timing : Type :=
| timing (value : AnimatedValue) (toValue duration : Q) (onEnd : list Timing).

Record LayoutRectangleExtended : Type := { width : Q }.

(** An array has an identity, which is what a dependency array compares. *)
Record ArrayRef (A : Type) : Type := { array_id : nat; items : list A }.
Arguments array_id {A} a.
Arguments items {A} a.

(** ** The container, [_CalendarContainer] *)

Module CalendarContainer.
Section Container.

Context {D : DateLib} {U : Utils} {T : Type} {E : ICalendarEventBase T} {Eff : Type}.

(** [CalendarContainerProps<T>] after destructuring, so with the defaults
    applied ([mode] is ['week'] when the prop is [undefined]).  The props
    that only reach the layout of the children (sizes, styles, formats,
    custom renderers and components) are left out.  A callback prop is
    [None] when [undefined]. *)
Record CalendarContainerProps : Type := {
  events : list T;
  date : option Date;
  locale : string;
  mode : string;
  swipeEnabled : bool;
  weekStartsOn : Z;
  weekEndsOn : Z;
  onChangeDate : option (Fn (Date * Date) Eff);
  onPressCell : option (Fn Date Eff);
  onPressDateHeader : option (Fn Date Eff);
  onPressEvent : option (Fn T Eff);
  showAllDayEventCell : bool;
  showHeaderPan : bool;
  animatePan : bool;
  fadeInDuration : Q;
}.

(** What a mounted container keeps between renders and its handlers write:
    the [targetDate] state cell (the dayjs object in it has an identity,
    [targetDate_id]; every [setTargetDate] stores a new object), the
    [leftValue] ref and the animations started so far (oldest first). *)
Record ContainerState : Type := {
  targetDate_cell : Dayjs;
  targetDate_id : nat;
  leftValue : option LayoutRectangleExtended;
  started : list Timing;
}.

Definition setTargetDate (d : Dayjs) (s : ContainerState) : ContainerState :=
  {| targetDate_cell := d; targetDate_id := S (targetDate_id s);
     leftValue := leftValue s; started := started s |}.

Definition handleLeftValue (layout : LayoutRectangleExtended)
    (s : ContainerState) : ContainerState :=
  {| targetDate_cell := targetDate_cell s; targetDate_id := targetDate_id s;
     leftValue := Some layout; started := started s |}.

(** [.start()] of each animation of [ts], in order. *)
Definition start_all (ts : list Timing) (s : ContainerState) : ContainerState :=
  {| targetDate_cell := targetDate_cell s; targetDate_id := targetDate_id s;
     leftValue := leftValue s; started := started s ++ ts |}.

(** What an event handler of the container does when it is called. *)
Definition Handler : Type := ContainerState -> ContainerState.

Variable props : CalendarContainerProps.
Variable theme : Theme.

(** [React.useState(dayjs(date))]; [dayjs(undefined)] is the current time,
    [now]. *)
Definition initialState (now : Dayjs) : ContainerState :=
  {| targetDate_cell := match date props with Some d => dayjs d | None => now end;
     targetDate_id := 0; leftValue := None; started := [] |}.

(** The effect on [[date]], run after the first render and after each
    render in which the [date] prop changed:
    [if (date) setTargetDate(dayjs(date))]. It calls no callback. *)
Definition date_effect : Handler := fun s =>
  match date props with
  | Some d => setTargetDate (dayjs d) s
  | None => s
  end.

(** *** The memoised values *)

Definition allDayEvents : list T :=
  List.filter (fun event => isAllDayEvent (start event) (end_ event)) (events props).

Definition daytimeEvents : list T :=
  List.filter (fun event => negb (isAllDayEvent (start event) (end_ event))) (events props).

Definition unsupported_mode (mode : string) : string :=
  "[react-native-big-calendar] The mode which you specified "
  +:+ String "034"%char mode +:+ String "034"%char " is not supported.".

(** The function memoised as [dateRange]. *)
Definition dateRange (targetDate : Dayjs) : Js.Result (list Dayjs) :=
  if String.eqb (mode props) "month" then
    Js.Return (getDatesInMonth targetDate (locale props))
  else if String.eqb (mode props) "week" then
    Js.Return (getDatesInWeek targetDate (weekStartsOn props) (locale props))
  else if String.eqb (mode props) "3days" then
    Js.Return (getDatesInNextThreeDays targetDate (locale props))
  else if String.eqb (mode props) "day" then
    Js.Return (getDatesInNextOneDay targetDate (locale props))
  else if String.eqb (mode props) "custom" then
    Js.Return (getDatesInNextCustomDays targetDate (weekStartsOn props)
                 (weekEndsOn props) (locale props))
  else Js.Throw (Js.Error (unsupported_mode (mode props))).

(** *** The handlers of one render

    The handlers close over the [targetDate] of the render that made them
    ([React.useCallback] makes [onSwipeHorizontalCallback] anew whenever
    [swipeEnabled], [targetDate], [mode] or [theme.isRTL] changed, which are
    all it reads); the ref is read when they run. *)

Section Render.

Variable targetDate : Dayjs.

(** [leftValue.current?.width || 0] *)
Definition current_width (s : ContainerState) : Q :=
  match leftValue s with
  | Some layout => if Qeq_bool (width layout) 0 then 0%Q else width layout
  | None => 0%Q
  end.

Definition movePrevBody : Handler := fun s =>
  let width := current_width s in
  start_all
    [ timing presentLeftValue width (fadeInDuration props) [];
      timing presentFadeAnim 0 (fadeInDuration props)
        [ timing presentLeftValue 0 (1 # 100)
            [ timing presentLeftValue (-1 * width) (1 # 100)
                [ timing presentLeftValue 0 (fadeInDuration props) [];
                  timing presentFadeAnim 1 (fadeInDuration props) [] ] ] ] ]
    s.

Definition moveNextBody : Handler := fun s =>
  let width := current_width s in
  start_all
    [ timing presentLeftValue (-1 * width) (fadeInDuration props) [];
      timing presentFadeAnim 0 (fadeInDuration props)
        [ timing presentLeftValue 0 (1 # 100)
            [ timing presentLeftValue width (1 # 100)
                [ timing presentLeftValue 0 (fadeInDuration props) [];
                  timing presentFadeAnim 1 (fadeInDuration props) [] ] ] ] ]
    s.

(** [(direction === 'LEFT' && !theme.isRTL) || (direction === 'RIGHT' && theme.isRTL)] *)
Definition forward (direction : HorizontalDirection) : bool :=
  (bool_decide (direction = LEFT) && negb (isRTL theme))
  || (bool_decide (direction = RIGHT) && isRTL theme).

Definition onSwipeHorizontalCallback (direction : HorizontalDirection) : Handler :=
  fun s =>
  if negb (swipeEnabled props) then s
  else if forward direction then
    setTargetDate (add_day targetDate (modeToNum (mode props) targetDate)) s
  else
    setTargetDate (add_day targetDate (modeToNum (mode props) targetDate * -1)) s.

Definition onSwipeHorizontal (direction : HorizontalDirection) : Handler :=
  fun s =>
  if animatePan props then
    if forward direction then
      onSwipeHorizontalCallback direction (moveNextBody s)
    else
      onSwipeHorizontalCallback direction (movePrevBody s)
  else onSwipeHorizontalCallback direction s.

Definition onPanLeft (direction : HorizontalDirection) : Handler :=
  fun s =>
  if animatePan props then onSwipeHorizontalCallback direction (movePrevBody s)
  else onSwipeHorizontalCallback direction s.

Definition onPanRight (direction : HorizontalDirection) : Handler :=
  fun s =>
  if animatePan props then onSwipeHorizontalCallback direction (moveNextBody s)
  else onSwipeHorizontalCallback direction s.


(** *** What is rendered *)

Record CalendarHeaderForMonthViewProps : Type := {
  monthHeader_locale : string;
  monthHeader_weekStartsOn : Z;
  monthHeader_showAllDayEventCell : bool;
  monthHeader_showHeaderPan : bool;
  monthHeader_panLeft : HorizontalDirection -> Handler;
  monthHeader_panRight : HorizontalDirection -> Handler;
}.

Record CalendarBodyForMonthViewProps : Type := {
  monthBody_dateRange : list Dayjs;
  monthBody_mode : string;
  monthBody_events : list T;
  monthBody_weekStartsOn : Z;
  monthBody_onPressCell : option (Fn Date Eff);
  monthBody_onPressEvent : option (Fn T Eff);
  monthBody_onSwipeHorizontal : HorizontalDirection -> Handler;
  monthBody_targetDate : Dayjs;
}.

Record CalendarBodyProps : Type := {
  body_dateRange : list Dayjs;
  body_mode : string;
  body_events : list T;
  body_onPressCell : option (Fn Date Eff);
  body_onPressEvent : option (Fn T Eff);
  body_onSwipeHorizontal : HorizontalDirection -> Handler;
  body_animatePan : bool;
  body_handleLeftValue : LayoutRectangleExtended -> Handler;
}.

(** The fragment the container returns: a header and a body, each given by
    the props it receives. *)
Inductive Fragment : Type :=
| MonthView (header : CalendarHeaderForMonthViewProps)
    (body : CalendarBodyForMonthViewProps)
| DaysView (header : CalendarHeader.CalendarHeaderProps T Eff Handler)
    (body : CalendarBodyProps).

(** The [return] part of the component, from [commonProps] on. *)
Definition fragment (dateRange : list Dayjs) : Fragment :=
  if String.eqb (mode props) "month" then
    MonthView
      {| monthHeader_locale := locale props;
         monthHeader_weekStartsOn := weekStartsOn props;
         monthHeader_showAllDayEventCell := showAllDayEventCell props;
         monthHeader_showHeaderPan := showHeaderPan props;
         monthHeader_panLeft := onPanLeft;
         monthHeader_panRight := onPanRight |}
      {| monthBody_dateRange := dateRange;
         monthBody_mode := mode props;
         monthBody_events := daytimeEvents ++ allDayEvents;
         monthBody_weekStartsOn := weekStartsOn props;
         monthBody_onPressCell := onPressCell props;
         monthBody_onPressEvent := onPressEvent props;
         monthBody_onSwipeHorizontal := onSwipeHorizontal;
         monthBody_targetDate := targetDate |}
  else
    DaysView
      {| CalendarHeader.dateRange := dateRange;
         CalendarHeader.allDayEvents := allDayEvents;
         CalendarHeader.onPressDateHeader := onPressDateHeader props;
         CalendarHeader.onPressEvent := onPressEvent props;
         CalendarHeader.showAllDayEventCell := showAllDayEventCell props;
         CalendarHeader.showHeaderPan := showHeaderPan props;
         CalendarHeader.panLeft := onPanLeft;
         CalendarHeader.panRight := onPanRight |}
      {| body_dateRange := dateRange;
         body_mode := mode props;
         body_events := daytimeEvents;
         body_onPressCell := onPressCell props;
         body_onPressEvent := onPressEvent props;
         body_onSwipeHorizontal := onSwipeHorizontal;
         body_animatePan := animatePan props;
         body_handleLeftValue := handleLeftValue |}.

End Render.

(** *** The date range and its effect across renders *)

(** [[mode, targetDate, locale, weekEndsOn, weekStartsOn]]: strings and
    numbers are compared by value, the dayjs object by identity. *)
Definition DateRangeDeps : Type := string * nat * string * Z * Z.

(** What React keeps of the last committed render: the dependencies and the
    value of the [dateRange] memo, and the dependencies
    [[dateRange, onChangeDate]] of the effect. *)
Record Hooks : Type := {
  dateRange_memo : DateRangeDeps * ArrayRef Dayjs;
  onChangeDate_deps : nat * option nat;
}.

(** The dependencies of the memo in the render of [s]. *)
Definition dateRange_deps (s : ContainerState) : DateRangeDeps :=
  (mode props, targetDate_id s, locale props, weekEndsOn props, weekStartsOn props).

(** [React.useMemo] of [dateRange]: the array of the last render when no
    dependency changed, a new array otherwise. *)
Definition useMemo_dateRange (last : option Hooks) (s : ContainerState)
    : Js.Result (DateRangeDeps * ArrayRef Dayjs) :=
  let deps := dateRange_deps s in
  match last with
  | Some h =>
      if bool_decide (fst (dateRange_memo h) = deps) then mret (dateRange_memo h)
      else
        range ← dateRange (targetDate_cell s);
        mret (deps, {| array_id := S (array_id (snd (dateRange_memo h)));
                       items := range |})
  | None =>
      range ← dateRange (targetDate_cell s);
      mret (deps, {| array_id := 0; items := range |})
  end.

(** [o.toDate()] where [o] is an array element or [undefined]. *)
Definition toDate_of (o : option Dayjs) : Js.Result Date :=
  match o with
  | Some d => mret (toDate d)
  | None => Js.Throw (Js.TypeError "Cannot read properties of undefined (reading 'toDate')")
  end.

(** [a.slice(-1)] *)
Definition slice_last {A : Type} (a : list A) : list A :=
  drop (length a - 1) a.

(** The body of the effect: [if (onChangeDate) onChangeDate([...])]. *)
Definition onChangeDate_effect (dateRange : list Dayjs) : Js.Result (list Eff) :=
  match onChangeDate props with
  | Some f =>
      first ← toDate_of (dateRange !! 0%nat);
      last ← toDate_of (slice_last dateRange !! 0%nat);
      mret [call f (first, last)]
  | None => mret []
  end.

(** [React.useEffect(effect, deps)]: the effect runs after the first render
    and after each render in which a dependency changed. *)
Definition useEffect {Deps : Type} `{EqDecision Deps} (last : option Deps)
    (deps : Deps) (effect : Js.Result (list Eff)) : Js.Result (list Eff) :=
  match last with
  | Some deps' => if bool_decide (deps' = deps) then mret [] else effect
  | None => effect
  end.

(** One render of the container in state [s] and its commit: the fragment
    returned, the callback calls made by the effects, and what React keeps.
    Only the effect on [[dateRange, onChangeDate]] calls a callback. *)
Definition render (last : option Hooks) (s : ContainerState)
    : Js.Result (Fragment * list Eff * Hooks) :=
  memo ← useMemo_dateRange last s;
  let dateRange := snd memo in
  let deps := (array_id dateRange, fn_id <$> onChangeDate props) in
  calls ← useEffect (onChangeDate_deps <$> last) deps
            (onChangeDate_effect (items dateRange));
  mret (fragment (targetDate_cell s) (items dateRange), calls,
        {| dateRange_memo := memo; onChangeDate_deps := deps |}).

(** The [dateRange] memo is computed anew in the render of [s]: it is the
    first render, or one of the memo's dependencies changed. *)
Definition dateRange_changes (last : option Hooks) (s : ContainerState) : Prop :=
  match last with
  | Some h => fst (dateRange_memo h) <> dateRange_deps s
  | None => True
  end.

End Container.

Arguments CalendarContainerProps {D} T Eff.
Arguments Fragment {D} T Eff.
Arguments Hooks {D}.

Section Handlers.

Context {D : DateLib} {U : Utils} {T : Type} {E : ICalendarEventBase T} {Eff : Type}.

(** The handlers the container gives to its children: the swipe handler of
    the bodies and the two pan handlers of the headers. *)
Definition navigation_handlers
    : list (CalendarContainerProps T Eff -> Theme -> Dayjs ->
            HorizontalDirection -> Handler) :=
  [onSwipeHorizontal; onPanLeft; onPanRight].

(** The props with another value of [animatePan]. *)
Definition with_animatePan (b : bool) (props : CalendarContainerProps T Eff)
    : CalendarContainerProps T Eff :=
  {| events := events props; date := date props; locale := locale props;
     mode := mode props; swipeEnabled := swipeEnabled props;
     weekStartsOn := weekStartsOn props; weekEndsOn := weekEndsOn props;
     onChangeDate := onChangeDate props; onPressCell := onPressCell props;
     onPressDateHeader := onPressDateHeader props;
     onPressEvent := onPressEvent props;
     showAllDayEventCell := showAllDayEventCell props;
     showHeaderPan := showHeaderPan props; animatePan := b;
     fadeInDuration := fadeInDuration props |}.

(** The events a fragment gives to its body component. *)
Definition events_given_to_body (f : Fragment T Eff) : list T :=
  match f with
  | MonthView _ body => monthBody_events body
  | DaysView _ body => body_events body
  end.

(** What React may hold when a render starts: nothing before the first
    render, and afterwards what some render of the container left. *)
Inductive committed : option Hooks -> Prop :=
| committed_mount : committed None
| committed_render (props : CalendarContainerProps T Eff) theme last s frag calls h :
    render props theme last s = Js.Return (frag, calls, h) ->
    committed (Some h).

End Handlers.

End CalendarContainer.

(** ** The display flags of the container

    The four state cells [showWeekDay], [showWeekDayInner],
    [showShortWeekDay] and [showDatesArrayStyle], and the effect that sets
    them from the mode. *)

Module DisplayFlags.

(** The four mode lists after destructuring: an [undefined] prop has its
    default, and [None] is a [null] prop. *)
Record ModeLists : Type := {
  showWeekDayModes : option (list string);
  showWeekDayInnerModes : option (list string);
  showShortWeekDayModes : option (list string);
  showDatesArrayStyleModes : option (list string);
}.

(** The defaults of the four props. *)
Definition defaultModeLists : ModeLists :=
  {| showWeekDayModes := Some ["3days"; "custom"; "day"; "month"; "week"];
     showWeekDayInnerModes := Some [];
     showShortWeekDayModes := Some [];
     showDatesArrayStyleModes := Some [] |}.

Record Flags : Type := {
  showWeekDay : bool;
  showWeekDayInner : bool;
  showShortWeekDay : bool;
  showDatesArrayStyle : bool;
}.

(** The initial values of the four [React.useState]. *)
Definition initialFlags : Flags :=
  {| showWeekDay := true; showWeekDayInner := false;
     showShortWeekDay := false; showDatesArrayStyle := false |}.

(** [modes.includes(mode)] on strings. *)
Definition includes (modes : list string) (mode : string) : bool :=
  existsb (String.eqb mode) modes.

(** [if (modes != null) setFlag(modes.includes(mode))] *)
Definition setIncludes (modes : option (list string)) (mode : string)
    (flag : bool) : bool :=
  match modes with
  | Some modes => includes modes mode
  | None => flag
  end.

(** The effect on the mode and the four lists; [mode] is [None] when it is
    [null]: [if (mode != null) { ... }]. *)
Definition mode_effect (mode : option string) (lists : ModeLists)
    (flags : Flags) : Flags :=
  match mode with
  | Some mode =>
      {| showWeekDay := setIncludes (showWeekDayModes lists) mode (showWeekDay flags);
         showWeekDayInner :=
           setIncludes (showWeekDayInnerModes lists) mode (showWeekDayInner flags);
         showShortWeekDay :=
           setIncludes (showShortWeekDayModes lists) mode (showShortWeekDay flags);
         showDatesArrayStyle :=
           setIncludes (showDatesArrayStyleModes lists) mode
             (showDatesArrayStyle flags) |}
  | None => flags
  end.

End DisplayFlags.

(** ** Reading animations and varying inputs *)

Module Timings.

Definition value_of (t : Timing) : AnimatedValue :=
  match t with timing value _ _ _ => value end.

Definition toValue_of (t : Timing) : Q :=
  match t with timing _ toValue _ _ => toValue end.

Definition duration_of (t : Timing) : Q :=
  match t with timing _ _ duration _ => duration end.

(** An animation and all those its end starts, directly or not. *)
Fixpoint chain (t : Timing) : list Timing :=
  match t with
  | timing _ _ _ onEnd =>
      t :: (fix chains (ts : list Timing) : list Timing :=
              match ts with
              | [] => []
              | t' :: ts' => chain t' ++ chains ts'
              end) onEnd
  end.

(** All the animations that starting [ts] brings about. *)
Definition chains (ts : list Timing) : list Timing := flat_map chain ts.

End Timings.

Module Variation.

Definition opposite (direction : HorizontalDirection) : HorizontalDirection :=
  match direction with LEFT => RIGHT | RIGHT => LEFT end.

(** The theme read in the other direction. *)
Definition mirrored (theme : Theme) : Theme := {| isRTL := negb (isRTL theme) |}.

Section Props.

Context {D : DateLib} {T : Type} {Eff : Type}.

(** The props with another [onChangeDate]. *)
Definition with_onChangeDate (f : option (Fn (Date * Date) Eff))
    (props : CalendarContainer.CalendarContainerProps T Eff)
    : CalendarContainer.CalendarContainerProps T Eff :=
  {| CalendarContainer.events := CalendarContainer.events props;
     CalendarContainer.date := CalendarContainer.date props;
     CalendarContainer.locale := CalendarContainer.locale props;
     CalendarContainer.mode := CalendarContainer.mode props;
     CalendarContainer.swipeEnabled := CalendarContainer.swipeEnabled props;
     CalendarContainer.weekStartsOn := CalendarContainer.weekStartsOn props;
     CalendarContainer.weekEndsOn := CalendarContainer.weekEndsOn props;
     CalendarContainer.onChangeDate := f;
     CalendarContainer.onPressCell := CalendarContainer.onPressCell props;
     CalendarContainer.onPressDateHeader := CalendarContainer.onPressDateHeader props;
     CalendarContainer.onPressEvent := CalendarContainer.onPressEvent props;
     CalendarContainer.showAllDayEventCell :=
       CalendarContainer.showAllDayEventCell props;
     CalendarContainer.showHeaderPan := CalendarContainer.showHeaderPan props;
     CalendarContainer.animatePan := CalendarContainer.animatePan props;
     CalendarContainer.fadeInDuration := CalendarContainer.fadeInDuration props |}.

End Props.

End Variation.

(** ** A reference implementation of the collaborators

    Dates are milliseconds since 1970-01-01T00:00:00 in UTC on the proleptic
    Gregorian calendar, and a dayjs object is its timestamp.  The instances
    below are used to run the components on concrete inputs; the theorems do
    not depend on them. *)

Module Reference.

Definition msPerDay : Z := 86400000.

(** Days since the epoch of a timestamp. *)
Definition dayOf (t : Z) : Z := t / msPerDay.

(** Year, month (1-12) and day of month of a day number. *)
Definition civil (days : Z) : Z * Z * Z :=
  let z := days + 719468 in
  let era := z / 146097 in
  let doe := z - era * 146097 in
  let yoe := (doe - doe / 1460 + doe / 36524 - doe / 146096) / 365 in
  let doy := doe - (365 * yoe + yoe / 4 - yoe / 100) in
  let mp := (5 * doy + 2) / 153 in
  let d := doy - (153 * mp + 2) / 5 + 1 in
  let m := if mp <? 10 then mp + 3 else mp - 9 in
  let y := yoe + era * 400 + (if m <=? 2 then 1 else 0) in
  (y, m, d).

Definition isLeap (y : Z) : bool :=
  ((y mod 4 =? 0) && negb (y mod 100 =? 0)) || (y mod 400 =? 0).

Definition daysInMonth (t : Z) : Z :=
  let '(y, m, _) := civil (dayOf t) in
  if m =? 2 then (if isLeap y then 29 else 28)
  else if (m =? 4) || (m =? 6) || (m =? 9) || (m =? 11) then 30
  else 31.

Definition dateOfMonth (t : Z) : Z :=
  let '(_, _, d) := civil (dayOf t) in d.

(** Day of the week, Sunday is 0. *)
Definition dayOfWeek (t : Z) : Z := (dayOf t + 4) mod 7.

Definition addDays (t n : Z) : Z := t + n * msPerDay.

(** The day of [t] is not before that of [a] and not after that of [b], or
    the same with [a] and [b] exchanged. *)
Definition between (t a b : Z) : bool :=
  ((dayOf a <=? dayOf t) && (dayOf t <=? dayOf b))
  || ((dayOf b <=? dayOf t) && (dayOf t <=? dayOf a)).

#[export] Instance utc : DateLib :=
  {| Date := Z; Dayjs := Z; dayjs := id; toDate := id;
     add_day := addDays; isBetween_day := between |}.

(** [n] consecutive days from [t]. *)
Definition daysFrom (t : Z) (n : nat) : list Z :=
  map (fun i => addDays t (Z.of_nat i)) (seq 0 n).

Definition weekLength (weekStartsOn weekEndsOn : Z) : nat :=
  if weekStartsOn <? weekEndsOn then Z.to_nat (weekEndsOn - weekStartsOn + 1)
  else if weekEndsOn <? weekStartsOn then Z.to_nat (weekEndsOn + 7 - weekStartsOn + 1)
  else 1%nat.

Definition startOfWeek (t weekStartsOn : Z) : Z :=
  addDays t (- ((dayOfWeek t - weekStartsOn) mod 7)).

(** Modelled from the spec: [isAllDayEvent] of [../utils], which is not
    among the sources. An all-day event spans one or more full days: it
    starts and ends in the first minute of a day. *)
Definition isAllDay (a b : Z) : bool :=
  (a mod msPerDay <? 60000) && (b mod msPerDay <? 60000).

(** Modelled from the spec: [modeToNum] of [../utils], which is not among
    the sources. The number of days that moves the target date by one
    period: one day, three days, a week (also for a custom range), and in
    month mode the days from the date to the first day of the next month. *)
Definition periodLength (mode : string) (t : Z) : Z :=
  if String.eqb mode "month" then daysInMonth t - dateOfMonth t + 1
  else if String.eqb mode "day" then 1
  else if String.eqb mode "3days" then 3
  else 7.

(** Modelled from the spec: the [getDatesIn...] helpers of [../utils], which
    are not among the sources. The days of the month, of the week, the
    next three days, the day, and the days of the custom range around the
    date. *)
#[export] Instance utils : Utils :=
  {| getDatesInMonth := fun t _ =>
       daysFrom (addDays t (1 - dateOfMonth t)) (Z.to_nat (daysInMonth t));
     getDatesInWeek := fun t weekStartsOn _ => daysFrom (startOfWeek t weekStartsOn) 7;
     getDatesInNextThreeDays := fun t _ => daysFrom t 3;
     getDatesInNextOneDay := fun t _ => daysFrom t 1;
     getDatesInNextCustomDays := fun t weekStartsOn weekEndsOn _ =>
       daysFrom (addDays t (weekStartsOn - dayOfWeek t))
         (weekLength weekStartsOn weekEndsOn);
     isAllDayEvent := isAllDay;
     modeToNum := periodLength |}.

Record Event : Type := { event_start : Z; event_end : Z; event_title : string }.

#[export] Instance event : ICalendarEventBase Event :=
  {| start := event_start; end_ := event_end; title := event_title |}.

(** The calls of the callbacks, recorded with their argument. *)
Inductive Call : Type :=
| ChangeDate (range : Z * Z)
| PressCell (date : Z)
| PressDateHeader (date : Z)
| PressEvent (event : Event).

End Reference.

(** ** Concrete inputs *)

Module Examples.

Import Reference CalendarContainer.

(** 2021-01-15, a Friday, 2021-02-01 and 2021-01-04, at midnight. *)
Definition jan15 : Z := 1610668800000.
Definition feb1 : Z := 1612137600000.

Definition ltr : Theme := {| isRTL := false |}.
Definition rtl : Theme := {| isRTL := true |}.

(** A day off on the 15th and 16th, and a meeting on the 15th from 9 to 10. *)
Definition dayOff : Event :=
  {| event_start := jan15; event_end := addDays jan15 1; event_title := "Day off" |}.
Definition meeting : Event :=
  {| event_start := jan15 + 9 * 3600000; event_end := jan15 + 10 * 3600000;
     event_title := "Meeting" |}.

Definition props_in (mode : string) : CalendarContainerProps Event Call :=
  {| events := [dayOff; meeting]; date := None; locale := "en"; mode := mode;
     swipeEnabled := true; weekStartsOn := 0; weekEndsOn := 6;
     onChangeDate := Some {| fn_id := 1; call := ChangeDate |};
     onPressCell := None;
     onPressDateHeader := Some {| fn_id := 2; call := PressDateHeader |};
     onPressEvent := Some {| fn_id := 3; call := PressEvent |};
     showAllDayEventCell := true; showHeaderPan := true; animatePan := true;
     fadeInDuration := 300 |}.

Definition locked (mode : string) : CalendarContainerProps Event Call :=
  {| events := [dayOff; meeting]; date := None; locale := "en"; mode := mode;
     swipeEnabled := false; weekStartsOn := 0; weekEndsOn := 6;
     onChangeDate := None; onPressCell := None; onPressDateHeader := None;
     onPressEvent := None;
     showAllDayEventCell := true; showHeaderPan := true; animatePan := true;
     fadeInDuration := 300 |}.

(** The state of a container mounted on the 15th. *)
Definition mounted : ContainerState :=
  {| targetDate_cell := jan15; targetDate_id := 0; leftValue := None;
     started := [] |}.

(** The header props the container makes in week mode on the 15th. *)
Definition week_header : CalendarHeader.CalendarHeaderProps Event Call Handler :=
  {| CalendarHeader.dateRange := getDatesInWeek jan15 0 "en";
     CalendarHeader.allDayEvents := allDayEvents (props_in "week");
     CalendarHeader.onPressDateHeader := onPressDateHeader (props_in "week");
     CalendarHeader.onPressEvent := onPressEvent (props_in "week");
     CalendarHeader.showAllDayEventCell := true;
     CalendarHeader.showHeaderPan := true;
     CalendarHeader.panLeft := onPanLeft (props_in "week") ltr jan15;
     CalendarHeader.panRight := onPanRight (props_in "week") ltr jan15 |}.

(** What the first render in week mode leaves. *)
Definition first_commit : option Hooks :=
  match render (props_in "week") ltr None mounted with
  | Js.Return (_, _, h) => Some h
  | Js.Throw _ => None
  end.

(** The props of [props_in] with a [date] prop, the 15th. *)
Definition dated (mode : string) : CalendarContainerProps Event Call :=
  {| events := [dayOff; meeting]; date := Some jan15; locale := "en"; mode := mode;
     swipeEnabled := true; weekStartsOn := 0; weekEndsOn := 6;
     onChangeDate := Some {| fn_id := 1; call := ChangeDate |};
     onPressCell := None;
     onPressDateHeader := Some {| fn_id := 2; call := PressDateHeader |};
     onPressEvent := Some {| fn_id := 3; call := PressEvent |};
     showAllDayEventCell := true; showHeaderPan := true; animatePan := true;
     fadeInDuration := 300 |}.

(** What the first render leaves, by the props. *)
Definition first_commit_of (props : CalendarContainerProps Event Call)
    (s : ContainerState) : option Hooks :=
  match render props ltr None s with
  | Js.Return (_, _, h) => Some h
  | Js.Throw _ => None
  end.

(** A second callback for [onChangeDate], another function than the first. *)
Definition other_onChangeDate : Fn (Z * Z) Call :=
  {| fn_id := 7; call := ChangeDate |}.

End Examples.

(** * Properties *)

Import CalendarContainer.

(** ** Navigation *)

Section Navigation.

Context {D : DateLib} {U : Utils} {T : Type} {E : ICalendarEventBase T} {Eff : Type}.

Implicit Types (props : CalendarContainerProps T Eff) (theme : Theme)
  (direction : HorizontalDirection) (s : ContainerState) (d : Dayjs).

(** The animations write neither the date nor the ref. *)
Lemma movePrevBody_frame props s :
  targetDate_cell (movePrevBody props s) = targetDate_cell s
  /\ targetDate_id (movePrevBody props s) = targetDate_id s
  /\ leftValue (movePrevBody props s) = leftValue s.
Proof. unfold movePrevBody, start_all. simpl. auto. Qed.

Lemma moveNextBody_frame props s :
  targetDate_cell (moveNextBody props s) = targetDate_cell s
  /\ targetDate_id (moveNextBody props s) = targetDate_id s
  /\ leftValue (moveNextBody props s) = leftValue s.
Proof. unfold moveNextBody, start_all. simpl. auto. Qed.

(** [forward] spelled out. *)
Lemma forward_spec theme direction :
  forward theme direction = true
  <-> (direction = LEFT /\ isRTL theme = false)
      \/ (direction = RIGHT /\ isRTL theme = true).
Proof.
  unfold forward. destruct direction, (isRTL theme); simpl; split;
    intros; try discriminate; auto;
    match goal with H : _ \/ _ |- _ => destruct H as [[? ?]|[? ?]]; congruence end.
Qed.

(** The date stored by the callback, whatever the state it runs in. *)
Lemma onSwipeHorizontalCallback_date props theme d direction s :
  targetDate_cell (onSwipeHorizontalCallback props theme d direction s) =
    if swipeEnabled props then
      if forward theme direction
      then add_day d (modeToNum (mode props) d)
      else add_day d (- modeToNum (mode props) d)
    else targetDate_cell s.
Proof.
  unfold onSwipeHorizontalCallback.
  destruct (swipeEnabled props); simpl; [|reflexivity].
  destruct (forward theme direction); simpl; [reflexivity|].
  f_equal. lia.
Qed.

(** The three handlers store the date the callback stores. *)
Lemma handlers_date props theme d direction s :
  let stored := targetDate_cell (onSwipeHorizontalCallback props theme d direction s) in
  targetDate_cell (onSwipeHorizontal props theme d direction s) = stored
  /\ targetDate_cell (onPanLeft props theme d direction s) = stored
  /\ targetDate_cell (onPanRight props theme d direction s) = stored.
Proof.
  intros stored. subst stored.
  unfold onSwipeHorizontal, onPanLeft, onPanRight.
  destruct (movePrevBody_frame props s) as (Hp & _ & _).
  destruct (moveNextBody_frame props s) as (Hn & _ & _).
  destruct (animatePan props), (forward theme direction) eqn:Hf;
    rewrite ?onSwipeHorizontalCallback_date, ?Hf, ?Hp, ?Hn; auto.
Qed.


(** The three handlers leave the identity of the stored date, and the ref,
    as the callback leaves them. *)
Lemma handlers_frame props theme d direction s :
  Forall (fun handler =>
            targetDate_id (handler props theme d direction s)
              = targetDate_id (onSwipeHorizontalCallback props theme d direction s)
            /\ leftValue (handler props theme d direction s) = leftValue s)
    (navigation_handlers (T:=T) (Eff:=Eff)).
Proof.
  unfold navigation_handlers, onSwipeHorizontal, onPanLeft, onPanRight.
  repeat constructor;
    destruct (animatePan props), (forward theme direction) eqn:Hf;
    unfold onSwipeHorizontalCallback; rewrite ?Hf;
    destruct (swipeEnabled props); reflexivity.
Qed.

(** C1. With [swipeEnabled], each of the swipe and pan handlers of a render
    replaces the target date [d] of that render by [d] plus
    [modeToNum(mode, d)] days when the direction is LEFT and the theme is
    not RTL, or RIGHT and the theme is RTL, and by [d] minus
    [modeToNum(mode, d)] days in the two other cases. *)
Theorem swipe_shifts_by_one_period props theme direction s :
  swipeEnabled props = true ->
  let d := targetDate_cell s in
  let period := modeToNum (mode props) d in
  Forall (fun handler =>
            let d' := targetDate_cell (handler props theme d direction s) in
            ((direction = LEFT /\ isRTL theme = false)
             \/ (direction = RIGHT /\ isRTL theme = true) ->
             d' = add_day d period)
            /\ ((direction = RIGHT /\ isRTL theme = false)
                \/ (direction = LEFT /\ isRTL theme = true) ->
                d' = add_day d (- period)))
    (navigation_handlers (T:=T) (Eff:=Eff)).
Proof.
  intros Hen d period.
  destruct (handlers_date props theme d direction s) as (H1 & H2 & H3).
  rewrite onSwipeHorizontalCallback_date, Hen in H1, H2, H3.
  unfold navigation_handlers.
  repeat constructor; simpl; intros Hdir;
    rewrite ?H1, ?H2, ?H3;
    (destruct (forward theme direction) eqn:Hf; [|
       try reflexivity; apply forward_spec in Hdir; congruence]);
    try reflexivity;
    apply forward_spec in Hf;
    destruct Hdir as [[? ?]|[? ?]], Hf as [[? ?]|[? ?]]; congruence.
Qed.

(** C9. Without [swipeEnabled] the callback returns the state it was given,
    and each swipe and pan handler leaves the target date (its value and
    the object itself) unchanged, for every direction, mode and value of
    [animatePan]. *)
Theorem swipe_disabled_keeps_target_date props theme d direction s :
  swipeEnabled props = false ->
  onSwipeHorizontalCallback props theme d direction s = s
  /\ Forall (fun handler =>
               targetDate_cell (handler props theme d direction s) = targetDate_cell s
               /\ targetDate_id (handler props theme d direction s) = targetDate_id s)
       (navigation_handlers (T:=T) (Eff:=Eff)).
Proof.
  intros Hoff.
  assert (Hcb : forall s', onSwipeHorizontalCallback props theme d direction s' = s').
  { intros s'. unfold onSwipeHorizontalCallback. rewrite Hoff. reflexivity. }
  split; [apply Hcb|].
  destruct (handlers_date props theme d direction s) as (H1 & H2 & H3).
  rewrite Hcb in H1, H2, H3.
  pose proof (handlers_frame props theme d direction s) as Hfr.
  unfold navigation_handlers in *.
  rewrite !Forall_cons in Hfr. destruct Hfr as ((I1 & _) & (I2 & _) & (I3 & _) & _).
  rewrite Hcb in I1, I2, I3.
  repeat constructor; assumption.
Qed.

(** C6. For every direction, each swipe and pan handler stores the same
    target date, and leaves the same ref, with [animatePan] true as with
    [animatePan] false: the two states differ in the animations started
    only. *)
Theorem animatePan_keeps_navigation props theme d direction s :
  Forall (fun handler =>
            let animated := handler (with_animatePan true props) theme d direction s in
            let plain := handler (with_animatePan false props) theme d direction s in
            targetDate_cell animated = targetDate_cell plain
            /\ targetDate_id animated = targetDate_id plain
            /\ leftValue animated = leftValue plain)
    (navigation_handlers (T:=T) (Eff:=Eff)).
Proof.
  pose proof (handlers_date (with_animatePan true props) theme d direction s) as Ht.
  pose proof (handlers_date (with_animatePan false props) theme d direction s) as Hf.
  pose proof (handlers_frame (with_animatePan true props) theme d direction s) as Ft.
  pose proof (handlers_frame (with_animatePan false props) theme d direction s) as Ff.
  unfold navigation_handlers in *. rewrite !Forall_cons in Ft, Ff.
  simpl in Ht, Hf.
  destruct Ht as (T1 & T2 & T3), Hf as (P1 & P2 & P3).
  destruct Ft as ((A1 & B1) & (A2 & B2) & (A3 & B3) & _).
  destruct Ff as ((C1 & D1) & (C2 & D2) & (C3 & D3) & _).
  assert (Hcb : onSwipeHorizontalCallback (with_animatePan true props) theme d direction s
                = onSwipeHorizontalCallback (with_animatePan false props) theme d direction s)
    by reflexivity.
  repeat constructor; simpl; congruence.
Qed.


End Navigation.

(** ** The date range *)

Section DateRange.

Context {D : DateLib} {U : Utils} {T : Type} {E : ICalendarEventBase T} {Eff : Type}.

Implicit Types (props : CalendarContainerProps T Eff) (d : Dayjs).

Local Ltac mode_listed :=
  repeat first [apply list_elem_of_here | apply list_elem_of_further].

(** The range of each supported mode. *)
Lemma dateRange_supported props d :
  (mode props = "month" ->
   dateRange props d = Js.Return (getDatesInMonth d (locale props)))
  /\ (mode props = "week" ->
      dateRange props d
      = Js.Return (getDatesInWeek d (weekStartsOn props) (locale props)))
  /\ (mode props = "3days" ->
      dateRange props d = Js.Return (getDatesInNextThreeDays d (locale props)))
  /\ (mode props = "day" ->
      dateRange props d = Js.Return (getDatesInNextOneDay d (locale props)))
  /\ (mode props = "custom" ->
      dateRange props d
      = Js.Return (getDatesInNextCustomDays d (weekStartsOn props)
                     (weekEndsOn props) (locale props))).
Proof.
  unfold dateRange. repeat split; intros ->; reflexivity.
Qed.

(** C2. The date-range computation returns a range for the modes [day],
    [3days], [week], [month] and [custom] and for no other: for every other
    mode it throws the error that names the mode. *)
Theorem dateRange_returns_iff_supported props d :
  (Js.returns (dateRange props d)
   <-> mode props ∈ ["day"; "3days"; "week"; "month"; "custom"])
  /\ (mode props ∉ ["day"; "3days"; "week"; "month"; "custom"] ->
      dateRange props d = Js.Throw (Js.Error (unsupported_mode (mode props)))).
Proof.
  assert (Hcases :
    (mode props ∈ ["day"; "3days"; "week"; "month"; "custom"]
     /\ Js.returns (dateRange props d))
    \/ ((mode props ∉ ["day"; "3days"; "week"; "month"; "custom"])
        /\ dateRange props d = Js.Throw (Js.Error (unsupported_mode (mode props))))).
  { unfold dateRange, Js.returns.
    destruct (String.eqb_spec (mode props) "month") as [->|Hm];
      [left; split; [mode_listed|eauto]|].
    destruct (String.eqb_spec (mode props) "week") as [->|Hw];
      [left; split; [mode_listed|eauto]|].
    destruct (String.eqb_spec (mode props) "3days") as [->|H3];
      [left; split; [mode_listed|eauto]|].
    destruct (String.eqb_spec (mode props) "day") as [->|Hd];
      [left; split; [mode_listed|eauto]|].
    destruct (String.eqb_spec (mode props) "custom") as [->|Hc];
      [left; split; [mode_listed|eauto]|].
    right. split; [|reflexivity].
    rewrite !not_elem_of_cons. repeat split; auto using not_elem_of_nil. }
  split.
  - split.
    + intros [r Hr]. destruct Hcases as [[Hin _]|[_ Hthrow]]; [exact Hin|congruence].
    + intros Hin. destruct Hcases as [[_ Hret]|[Hnot _]]; [exact Hret|contradiction].
  - intros Hnot. destruct Hcases as [[Hin _]|[_ Hthrow]]; [contradiction|exact Hthrow].
Qed.

End DateRange.

(** ** The partition of the events *)

Section Events.

Context {D : DateLib} {U : Utils} {T : Type} {E : ICalendarEventBase T} {Eff : Type}.

Implicit Types (props : CalendarContainerProps T Eff) (event : T).

Lemma filter_sublist {A : Type} (f : A -> bool) (l : list A) :
  List.filter f l `sublist_of` l.
Proof.
  induction l as [|x l IH]; simpl; [constructor|].
  destruct (f x); [apply sublist_skip|apply sublist_cons]; exact IH.
Qed.

Lemma filter_split_perm {A : Type} (f : A -> bool) (l : list A) :
  List.filter f l ++ List.filter (fun x => negb (f x)) l ≡ₚ l.
Proof.
  induction l as [|x l IH]; simpl; [reflexivity|].
  destruct (f x); simpl.
  - rewrite IH. reflexivity.
  - rewrite <- Permutation_middle, IH. reflexivity.
Qed.

Lemma elem_of_allDayEvents props event :
  event ∈ allDayEvents props
  <-> event ∈ events props /\ isAllDayEvent (start event) (end_ event) = true.
Proof. unfold allDayEvents. rewrite !list_elem_of_In, filter_In. reflexivity. Qed.

Lemma elem_of_daytimeEvents props event :
  event ∈ daytimeEvents props
  <-> event ∈ events props /\ isAllDayEvent (start event) (end_ event) = false.
Proof.
  unfold daytimeEvents. rewrite !list_elem_of_In, filter_In, negb_true_iff.
  reflexivity.
Qed.

(** C3. The all-day events are the events of the input for which
    [isAllDayEvent(start, end)] holds and the timed events those for which
    it does not; each of the two lists is the input with some events left
    out, in the input's order; the two lists together are a rearrangement of
    the input; and an event of the input is in exactly one of them. *)
Theorem events_partition props :
  (forall event, event ∈ allDayEvents props
     <-> event ∈ events props /\ isAllDayEvent (start event) (end_ event) = true)
  /\ (forall event, event ∈ daytimeEvents props
        <-> event ∈ events props /\ isAllDayEvent (start event) (end_ event) = false)
  /\ allDayEvents props `sublist_of` events props
  /\ daytimeEvents props `sublist_of` events props
  /\ allDayEvents props ++ daytimeEvents props ≡ₚ events props
  /\ (forall event, event ∈ events props ->
        (event ∈ allDayEvents props /\ event ∉ daytimeEvents props)
        \/ (event ∈ daytimeEvents props /\ event ∉ allDayEvents props)).
Proof.
  split; [apply elem_of_allDayEvents|].
  split; [apply elem_of_daytimeEvents|].
  split; [apply filter_sublist|].
  split; [apply filter_sublist|].
  split; [apply filter_split_perm|].
  intros event Hin.
  rewrite elem_of_allDayEvents, elem_of_daytimeEvents.
  destruct (isAllDayEvent (start event) (end_ event)); [left|right];
    (split; [auto|intros [_ ?]; discriminate]).
Qed.

End Events.

(** ** The default header *)

Section HeaderProperties.

Context {D : DateLib} {T : Type} {E : ICalendarEventBase T} {Eff Act : Type}.

Implicit Types (props : CalendarHeader.CalendarHeaderProps T Eff Act)
  (date : Dayjs) (event : T).

(** The cells of the header are those of the dates of the range, in order. *)
Lemma dateCells_lookup props i date :
  CalendarHeader.dateRange props !! i = Some date ->
  CalendarHeader.dateCells (CalendarHeader._CalendarHeader props) !! i
  = Some (CalendarHeader.dateCell props date).
Proof.
  intros Hi. unfold CalendarHeader._CalendarHeader. simpl.
  rewrite list_lookup_fmap, Hi. reflexivity.
Qed.

Lemma eventShown_dateCell props date j event :
  CalendarHeader.allDayEvents props !! j = Some event ->
  CalendarHeader.eventShown (CalendarHeader.dateCell props date) j
  = if CalendarHeader.showAllDayEventCell props
    then CalendarHeader.allDayEventElement props date event
    else None.
Proof.
  intros Hj. unfold CalendarHeader.eventShown, CalendarHeader.dateCell. simpl.
  destruct (CalendarHeader.showAllDayEventCell props); [|reflexivity].
  rewrite list_lookup_fmap, Hj. simpl.
  destruct (CalendarHeader.allDayEventElement props date event); reflexivity.
Qed.

(** C7. In the cell of a date of the range, the all-day cell is rendered
    exactly when [showAllDayEventCell] is true, and it shows an all-day
    event exactly when, moreover, the date is between the event's start and
    end at day granularity, ends included
    ([isBetween(start, end, 'day', '[]')]); what is shown is the event's
    title. *)
Theorem allDay_event_shown_iff_between props i j date event :
  CalendarHeader.dateRange props !! i = Some date ->
  CalendarHeader.allDayEvents props !! j = Some event ->
  exists cell,
    CalendarHeader.dateCells (CalendarHeader._CalendarHeader props) !! i = Some cell
    /\ CalendarHeader.cell_date cell = date
    /\ (is_Some (CalendarHeader.allDayCell cell)
        <-> CalendarHeader.showAllDayEventCell props = true)
    /\ (is_Some (CalendarHeader.eventShown cell j)
        <-> CalendarHeader.showAllDayEventCell props = true
            /\ isBetween_day date (start event) (end_ event) = true)
    /\ (forall element, CalendarHeader.eventShown cell j = Some element ->
          CalendarHeader.event_text element = title event).
Proof.
  intros Hi Hj. exists (CalendarHeader.dateCell props date).
  split; [apply dateCells_lookup; exact Hi|].
  split; [reflexivity|].
  rewrite (eventShown_dateCell props date j event Hj).
  unfold CalendarHeader.dateCell, CalendarHeader.allDayEventElement. simpl.
  destruct (CalendarHeader.showAllDayEventCell props);
    destruct (isBetween_day date (start event) (end_ event)); simpl.
  all: repeat apply conj.
  all: try (intros [? Hs]; discriminate Hs).
  all: try (intros [? ?]; discriminate).
  all: try discriminate.
  all: try (intros; eexists; reflexivity).
  all: try (intros; repeat split; reflexivity).
  intros element [= <-]. reflexivity.
Qed.

(** C8. Tapping the cell of a date of the range calls [onPressDateHeader]
    once, with that date converted by [toDate]; without an
    [onPressDateHeader] the cell is disabled and a tap calls nothing (nor
    would the press handler itself). *)
Theorem date_header_tap props i date :
  CalendarHeader.dateRange props !! i = Some date ->
  exists cell,
    CalendarHeader.dateCells (CalendarHeader._CalendarHeader props) !! i = Some cell
    /\ match CalendarHeader.onPressDateHeader props with
       | Some f =>
           disabled (CalendarHeader.cell_touch cell) = false
           /\ tap (CalendarHeader.cell_touch cell) = [call f (toDate date)]
       | None =>
           disabled (CalendarHeader.cell_touch cell) = true
           /\ tap (CalendarHeader.cell_touch cell) = []
           /\ onPress (CalendarHeader.cell_touch cell) = []
       end.
Proof.
  intros Hi. exists (CalendarHeader.dateCell props date).
  split; [apply dateCells_lookup; exact Hi|].
  unfold tap, CalendarHeader.dateCell, CalendarHeader._onPressHeader. simpl.
  destruct (CalendarHeader.onPressDateHeader props) as [f|]; simpl; auto.
Qed.

End HeaderProperties.

(** ** What the container renders *)

Section Rendering.

Context {D : DateLib} {U : Utils} {T : Type} {E : ICalendarEventBase T} {Eff : Type}.

Implicit Types (props : CalendarContainerProps T Eff) (theme : Theme)
  (s : ContainerState) (d : Dayjs) (range : list Dayjs) (event : T).

Lemma allDayEvents_all_day props :
  Forall (fun event => isAllDayEvent (start event) (end_ event) = true)
    (allDayEvents props).
Proof.
  apply Forall_forall. intros event Hin.
  apply elem_of_allDayEvents in Hin. apply Hin.
Qed.

Lemma daytimeEvents_timed props :
  Forall (fun event => isAllDayEvent (start event) (end_ event) = false)
    (daytimeEvents props).
Proof.
  apply Forall_forall. intros event Hin.
  apply elem_of_daytimeEvents in Hin. apply Hin.
Qed.

(** C4, amended. In every mode other than [month] the body is given the
    timed events and no other, and the header is given the all-day events
    and no other, which the default header lists in the all-day cell of
    each date when [showAllDayEventCell] is true; in [month] mode the body
    is given the timed events followed by the all-day events. *)
Theorem allDay_events_rendered_apart props theme d range :
  (mode props <> "month" ->
   exists header body,
     fragment props theme d range = DaysView header body
     /\ body_events body = daytimeEvents props
     /\ Forall (fun event => isAllDayEvent (start event) (end_ event) = false)
          (body_events body)
     /\ CalendarHeader.allDayEvents header = allDayEvents props
     /\ Forall (fun event => isAllDayEvent (start event) (end_ event) = true)
          (CalendarHeader.allDayEvents header)
     /\ Forall (fun cell =>
                  CalendarHeader.allDayCell cell
                  = if showAllDayEventCell props
                    then Some (map (CalendarHeader.allDayEventElement header
                                      (CalendarHeader.cell_date cell))
                                 (allDayEvents props))
                    else None)
          (CalendarHeader.dateCells (CalendarHeader._CalendarHeader header)))
  /\ (mode props = "month" ->
      exists header body,
        fragment props theme d range = MonthView header body
        /\ monthBody_events body = daytimeEvents props ++ allDayEvents props).
Proof.
  unfold fragment. split.
  - intros Hmode. apply String.eqb_neq in Hmode. rewrite Hmode.
    eexists _, _. split; [reflexivity|]. simpl.
    split; [reflexivity|].
    split; [apply daytimeEvents_timed|].
    split; [reflexivity|].
    split; [apply allDayEvents_all_day|].
    apply Forall_forall. intros cell Hcell.
    apply list_elem_of_fmap in Hcell. destruct Hcell as (date & -> & _).
    reflexivity.
  - intros Hmode. rewrite Hmode. simpl.
    eexists _, _. split; reflexivity.
Qed.

(** The pan buttons of the default header call the pan handlers of the
    container: the left one [onPanLeft('LEFT')], the right one
    [onPanRight('RIGHT')]. *)
Lemma header_pan_buttons props theme d range :
  mode props <> "month" ->
  exists header body,
    fragment props theme d range = DaysView header body
    /\ CalendarHeader.panLeftButton (CalendarHeader._CalendarHeader header)
       = (if showHeaderPan props
          then Some {| onPress := onPanLeft props theme d LEFT; disabled := false |}
          else None)
    /\ CalendarHeader.panRightButton (CalendarHeader._CalendarHeader header)
       = (if showHeaderPan props
          then Some {| onPress := onPanRight props theme d RIGHT; disabled := false |}
          else None).
Proof.
  intros Hmode. apply String.eqb_neq in Hmode.
  unfold fragment. rewrite Hmode. eexists _, _.
  split; [reflexivity|]. split; reflexivity.
Qed.

(** A range that differs from that of the last render was computed anew. *)
Lemma changed_range_computed_anew props theme h s frag calls h' :
  render props theme (Some h) s = Js.Return (frag, calls, h') ->
  items (snd (dateRange_memo h')) <> items (snd (dateRange_memo h)) ->
  dateRange_changes props (Some h) s.
Proof.
  intros Hr Hne Hsame. apply Hne. clear Hne.
  unfold render, useMemo_dateRange in Hr. simpl in Hr.
  rewrite bool_decide_eq_true_2 in Hr by exact Hsame. simpl in Hr.
  match type of Hr with
  | (?effect ≫= _) = _ => destruct effect; simpl in Hr
  end; [|discriminate].
  injection Hr as _ _ <-. reflexivity.
Qed.

(** What a render leaves makes the effect's dependency on the range the
    array of the memo. *)
Lemma committed_deps (last : option Hooks) :
  committed (T:=T) (Eff:=Eff) last ->
  match last with
  | Some h => fst (onChangeDate_deps h) = array_id (snd (dateRange_memo h))
  | None => True
  end.
Proof.
  intros Hc. destruct Hc as [|props theme last s frag calls h Hr]; [exact I|].
  unfold render in Hr.
  destruct (useMemo_dateRange props last s) as [memo|e]; simpl in Hr; [|discriminate].
  match type of Hr with
  | context [useEffect ?a ?b ?c] => destruct (useEffect a b c); simpl in Hr
  end; [|discriminate].
  injection Hr as _ _ <-. reflexivity.
Qed.

Lemma last_cons_default {A : Type} (x d : A) (l : list A) :
  List.last (x :: l) d = List.last l x.
Proof.
  revert x d. induction l as [|y l IH]; intros x d; [reflexivity|].
  change (List.last (x :: y :: l) d) with (List.last (y :: l) d).
  rewrite !IH. reflexivity.
Qed.

(** [a.slice(-1)[0]] is the last element of [a], if there is one. *)
Lemma slice_last_lookup {A : Type} (a : list A) :
  slice_last a !! 0%nat = last a.
Proof.
  unfold slice_last. rewrite lookup_drop, last_lookup. f_equal. lia.
Qed.

Lemma last_cons_last {A : Type} (first : A) (rest : list A) :
  last (first :: rest) = Some (List.last rest first).
Proof.
  revert first. induction rest as [|y rest IH]; intros first; [reflexivity|].
  rewrite last_cons_cons, IH, last_cons_default. reflexivity.
Qed.

(** The effect, when the callback is given, by the shape of the range. *)
Lemma onChangeDate_effect_spec props f range :
  onChangeDate props = Some f ->
  onChangeDate_effect props range =
    match range with
    | [] => Js.Throw (Js.TypeError
              "Cannot read properties of undefined (reading 'toDate')")
    | first :: rest =>
        Js.Return [call f (toDate first, toDate (List.last rest first))]
    end.
Proof.
  intros Hf. unfold onChangeDate_effect. rewrite Hf, slice_last_lookup.
  destruct range as [|first rest]; [reflexivity|].
  rewrite last_cons_last. reflexivity.
Qed.

(** C10. When an [onChangeDate] callback is given, a render in which the
    date range is computed anew (the first render, or a render after a
    dependency of the range changed) and is not empty calls the callback
    once, with the pair of the first and the last date of the range, each
    converted by [toDate]; when the range is empty no call is made: the
    effect throws a [TypeError]. *)
Theorem onChangeDate_called_with_range_ends props theme f last s range :
  onChangeDate props = Some f ->
  committed (T:=T) (Eff:=Eff) last ->
  dateRange_changes props last s ->
  dateRange props (targetDate_cell s) = Js.Return range ->
  match range with
  | [] =>
      render props theme last s
      = Js.Throw (Js.TypeError
                    "Cannot read properties of undefined (reading 'toDate')")
  | first :: rest =>
      exists h,
        render props theme last s
        = Js.Return (fragment props theme (targetDate_cell s) range,
                     [call f (toDate first, toDate (List.last rest first))], h)
  end.
Proof.
  intros Hf Hc Hchg Hrange.
  pose proof (committed_deps last Hc) as Hdeps.
  pose proof (onChangeDate_effect_spec props f range Hf) as Heff.
  unfold render, useMemo_dateRange.
  destruct last as [h|]; simpl in *.
  - rewrite bool_decide_eq_false_2 by exact Hchg.
    rewrite Hrange. simpl.
    rewrite bool_decide_eq_false_2.
    + rewrite Heff. destruct range as [|first rest]; simpl; eauto.
    + rewrite Hf. simpl. intros Heq. rewrite Heq in Hdeps. simpl in Hdeps. lia.
  - rewrite Hrange. simpl. rewrite Heff.
    destruct range as [|first rest]; simpl; eauto.
Qed.

End Rendering.

(** ** The properties on concrete inputs *)


(** The period of the reference helpers depends on the date in month mode
    only. *)
Lemma periodLength_fixed_outside_month (mode : string) (t t' : Z) :
  mode <> "month" ->
  Reference.periodLength mode t' = Reference.periodLength mode t.
Proof.
  intros Hmode. unfold Reference.periodLength.
  apply String.eqb_neq in Hmode. rewrite Hmode. reflexivity.
Qed.

Section Concrete.

Import Reference Examples.

(** In week mode, left to right, a swipe to the left from the 15th of
    January 2021 stores the 22nd, and the right pan button of the header
    stores the 8th. *)
Lemma swipe_shifts_by_one_period_witness :
  swipeEnabled (props_in "week") = true
  /\ targetDate_cell (onSwipeHorizontal (props_in "week") ltr jan15 LEFT mounted)
     = addDays jan15 7
  /\ targetDate_cell (onPanRight (props_in "week") ltr jan15 RIGHT mounted)
     = addDays jan15 (-7).
Proof.
  split; [reflexivity|].
  pose proof (swipe_shifts_by_one_period (props_in "week") ltr LEFT mounted eq_refl)
    as HL.
  pose proof (swipe_shifts_by_one_period (props_in "week") ltr RIGHT mounted eq_refl)
    as HR.
  unfold navigation_handlers in HL, HR.
  apply Forall_cons in HL as [[HL _] _].
  apply Forall_cons in HR as [_ HR].
  apply Forall_cons in HR as [_ HR].
  apply Forall_cons in HR as [[_ HR] _].
  split.
  - apply HL. left. split; reflexivity.
  - apply HR. left. split; reflexivity.
Defined.

(** With [swipeEnabled] false, in month mode, the swipe handler leaves the
    15th in place. *)
Lemma swipe_disabled_keeps_target_date_witness :
  swipeEnabled (locked "month") = false
  /\ onSwipeHorizontalCallback (locked "month") ltr jan15 LEFT mounted = mounted
  /\ targetDate_cell (onSwipeHorizontal (locked "month") ltr jan15 LEFT mounted)
     = jan15.
Proof.
  split; [reflexivity|].
  destruct (swipe_disabled_keeps_target_date (locked "month") ltr jan15 LEFT
              mounted eq_refl) as [Hcb Hall].
  split; [exact Hcb|].
  unfold navigation_handlers in Hall.
  apply Forall_cons in Hall as [[Hall _] _]. exact Hall.
Defined.



(** The mode [year] is not supported. *)
Lemma dateRange_returns_iff_supported_witness :
  dateRange (props_in "year") jan15
  = Js.Throw (Js.Error (unsupported_mode "year")).
Proof.
  destruct (dateRange_returns_iff_supported (D:=utc) (U:=utils)
              (props_in "year") jan15) as [_ Hthrow].
  apply Hthrow. repeat (apply not_elem_of_cons; split; [discriminate|]).
  apply not_elem_of_nil.
Defined.

(** The day off is an all-day event and is not a timed event. *)
Lemma events_partition_witness :
  dayOff ∈ allDayEvents (props_in "week")
  /\ dayOff ∉ daytimeEvents (props_in "week").
Proof.
  destruct (events_partition (props_in "week")) as (_ & _ & _ & _ & _ & Hone).
  destruct (Hone dayOff) as [Hall|[Hday Hnot]].
  - apply list_elem_of_here.
  - exact Hall.
  - exfalso. apply Hnot. apply list_elem_of_here.
Defined.

(** C4, as stated, fails. In month mode the day off, an all-day event, is
    among the events given to the body. *)
Lemma allDay_event_in_month_body_counterexample :
  dayOff ∈ events_given_to_body
             (fragment (props_in "month") ltr jan15
                (getDatesInMonth jan15 "en"))
  /\ isAllDayEvent (start dayOff) (end_ dayOff) = true.
Proof.
  split; [|reflexivity].
  apply list_elem_of_further, list_elem_of_here.
Qed.

(** In week mode the body is given the meeting and the header the day off. *)
Lemma allDay_events_rendered_apart_witness :
  exists header body,
    fragment (props_in "week") ltr jan15 (getDatesInWeek jan15 0 "en")
    = DaysView header body
    /\ body_events body = [meeting]
    /\ CalendarHeader.allDayEvents header = [dayOff].
Proof.
  destruct (allDay_events_rendered_apart (D:=utc) (U:=utils) (props_in "week")
              ltr jan15 (@getDatesInWeek utc utils jan15 0 "en")) as [Hdays _].
  destruct Hdays as (header & body & Hfrag & Hbody & _ & Hheader & _).
  - discriminate.
  - exists header, body. repeat split; assumption.
Defined.

(** In the week of the 15th, the day off is shown in the cell of the 16th
    (the seventh cell) and not in that of the 14th (the fifth). *)
Lemma allDay_event_shown_iff_between_witness :
  (exists cell,
     CalendarHeader.dateCells (CalendarHeader._CalendarHeader week_header) !! 6%nat
     = Some cell
     /\ is_Some (CalendarHeader.eventShown cell 0))
  /\ (exists cell,
        CalendarHeader.dateCells (CalendarHeader._CalendarHeader week_header) !! 4%nat
        = Some cell
        /\ ~ is_Some (CalendarHeader.eventShown cell 0)).
Proof.
  split.
  - destruct (allDay_event_shown_iff_between (D:=utc) week_header 6 0 (addDays jan15 1)
                dayOff eq_refl eq_refl) as (cell & Hcell & _ & _ & Hshown & _).
    exists cell. split; [exact Hcell|]. apply Hshown. split; reflexivity.
  - destruct (allDay_event_shown_iff_between (D:=utc) week_header 4 0 (addDays jan15 (-1))
                dayOff eq_refl eq_refl) as (cell & Hcell & _ & _ & Hshown & _).
    exists cell. split; [exact Hcell|]. intros Hs. apply Hshown in Hs.
    destruct Hs as [_ Hs]. discriminate Hs.
Defined.

(** A tap on the cell of the 15th calls [onPressDateHeader] with the 15th. *)
Lemma date_header_tap_witness :
  exists cell,
    CalendarHeader.dateCells (CalendarHeader._CalendarHeader week_header) !! 5%nat
    = Some cell
    /\ tap (CalendarHeader.cell_touch cell) = [PressDateHeader jan15].
Proof.
  destruct (date_header_tap (D:=utc) week_header 5 jan15 eq_refl)
    as (cell & Hcell & Htap).
  exists cell. split; [exact Hcell|]. apply Htap.
Defined.

(** After the first render in week mode and a swipe to the left, the next
    render calls [onChangeDate] with the 17th and the 23rd of January. *)
Lemma onChangeDate_called_with_range_ends_witness :
  exists h,
    render (props_in "week") ltr first_commit
      (onSwipeHorizontal (props_in "week") ltr jan15 LEFT mounted)
    = Js.Return
        (fragment (props_in "week") ltr (addDays jan15 7)
           (getDatesInWeek (addDays jan15 7) 0 "en"),
         [ChangeDate (addDays jan15 2, addDays jan15 8)], h).
Proof.
  refine (onChangeDate_called_with_range_ends (D:=utc) (U:=utils)
            (props_in "week") ltr
            {| fn_id := 1; call := ChangeDate |} first_commit
            (onSwipeHorizontal (props_in "week") ltr jan15 LEFT mounted)
            (@getDatesInWeek utc utils (addDays jan15 7) 0 "en")
            eq_refl _ _ eq_refl).
  - eapply (committed_render (props_in "week") ltr None mounted). reflexivity.
  - simpl. discriminate.
Defined.

End Concrete.

(** * Further properties *)

Import Variation Timings.

(** ** Directions, pan buttons and animations *)

Section Gestures.

Context {D : DateLib} {U : Utils} {T : Type} {E : ICalendarEventBase T} {Eff : Type}.

Implicit Types (props : CalendarContainerProps T Eff) (theme : Theme)
  (direction : HorizontalDirection) (s : ContainerState) (d : Dayjs).

Lemma forward_mirrored theme direction :
  forward (mirrored theme) direction = forward theme (opposite direction).
Proof. unfold forward, mirrored. destruct direction, (isRTL theme); reflexivity. Qed.

Lemma onSwipeHorizontalCallback_mirrored props theme d direction s :
  onSwipeHorizontalCallback props (mirrored theme) d direction s
  = onSwipeHorizontalCallback props theme d (opposite direction) s.
Proof.
  unfold onSwipeHorizontalCallback. rewrite forward_mirrored. reflexivity.
Qed.

(** X1. Reading the theme in the other direction exchanges the two
    directions: each swipe and pan handler does with a direction under the
    mirrored theme exactly what it does with the opposite direction under
    the theme, to the date and to the animations. *)
Theorem mirrored_theme_exchanges_directions props theme d direction s :
  Forall (fun handler =>
            handler props (mirrored theme) d direction s
            = handler props theme d (opposite direction) s)
    (navigation_handlers (T:=T) (Eff:=Eff)).
Proof.
  unfold navigation_handlers, onSwipeHorizontal, onPanLeft, onPanRight.
  repeat constructor;
    rewrite ?forward_mirrored, ?onSwipeHorizontalCallback_mirrored; reflexivity.
Qed.

(** X2. With [animatePan] each swipe and pan handler starts two animations,
    also when [swipeEnabled] is false and the date stays; without
    [animatePan] it starts none; the animations started before are kept, in
    order. *)
Theorem handlers_start_two_animations props theme d direction s :
  Forall (fun handler =>
            exists new,
              started (handler props theme d direction s) = started s ++ new
              /\ length new = if animatePan props then 2%nat else 0%nat)
    (navigation_handlers (T:=T) (Eff:=Eff)).
Proof.
  unfold navigation_handlers, onSwipeHorizontal, onPanLeft, onPanRight,
    onSwipeHorizontalCallback, movePrevBody, moveNextBody.
  repeat constructor;
    destruct (animatePan props), (forward theme direction), (swipeEnabled props);
    simpl;
    first [ exists []; split; [symmetry; apply app_nil_r | reflexivity]
          | eexists; split; reflexivity ].
Qed.

Lemma current_width_zero s :
  match leftValue s with
  | Some layout => (width layout == 0)%Q
  | None => True
  end ->
  current_width s = 0%Q.
Proof.
  unfold current_width. destruct (leftValue s) as [layout|]; [|reflexivity].
  intros Hz. apply Qeq_bool_iff in Hz. rewrite Hz. reflexivity.
Qed.

(** X3. As long as no layout was reported to [handleLeftValue], or the
    width reported is zero, every animation of [presentLeftValue] that
    [movePrevBody] and [moveNextBody] bring about, at once or at the end of
    another, goes to zero: the body does not slide. *)
Theorem no_width_no_slide props s :
  match leftValue s with
  | Some layout => (width layout == 0)%Q
  | None => True
  end ->
  Forall (fun move =>
            exists new,
              started (move props s) = started s ++ new
              /\ Forall (fun t => value_of t = presentLeftValue ->
                                  (toValue_of t == 0)%Q)
                   (chains new))
    [movePrevBody (T:=T) (Eff:=Eff); moveNextBody (T:=T) (Eff:=Eff)].
Proof.
  intros Hz. apply current_width_zero in Hz.
  constructor; [|constructor; [|constructor]].
  all: unfold movePrevBody, moveNextBody, start_all; simpl; rewrite Hz.
  all: eexists; (split; [reflexivity|]); simpl.
  all: repeat constructor; simpl; intros; try discriminate; reflexivity.
Qed.

(** X4. In a mode other than [month], the default header shows its two pan
    buttons exactly when [showHeaderPan] is true, and neither is disabled.
    With [swipeEnabled], a tap on the left button stores the target date of
    the render plus one period when the theme is not RTL and minus one
    period when it is; a tap on the right button does the reverse. *)
Theorem pan_buttons_navigate props theme s range :
  mode props <> "month" ->
  swipeEnabled props = true ->
  let d := targetDate_cell s in
  let period := modeToNum (mode props) d in
  exists header body,
    fragment props theme d range = DaysView header body
    /\ (showHeaderPan props = false ->
        CalendarHeader.panLeftButton (CalendarHeader._CalendarHeader header) = None
        /\ CalendarHeader.panRightButton (CalendarHeader._CalendarHeader header) = None)
    /\ (showHeaderPan props = true ->
        exists left right,
          CalendarHeader.panLeftButton (CalendarHeader._CalendarHeader header)
          = Some left
          /\ CalendarHeader.panRightButton (CalendarHeader._CalendarHeader header)
             = Some right
          /\ disabled left = false /\ disabled right = false
          /\ targetDate_cell (onPress left s)
             = (if isRTL theme then add_day d (- period) else add_day d period)
          /\ targetDate_cell (onPress right s)
             = (if isRTL theme then add_day d period else add_day d (- period))).
Proof.
  intros Hmode Hen d period. apply String.eqb_neq in Hmode.
  unfold fragment. rewrite Hmode. eexists _, _. split; [reflexivity|].
  unfold CalendarHeader._CalendarHeader. simpl.
  split; intros ->; [split; reflexivity|].
  eexists _, _. do 4 (split; [reflexivity|]). simpl.
  destruct (handlers_date props theme d LEFT s) as (_ & HL & _).
  destruct (handlers_date props theme d RIGHT s) as (_ & _ & HR).
  rewrite HL, HR, !onSwipeHorizontalCallback_date, Hen.
  unfold forward. destruct (isRTL theme); split; reflexivity.
Qed.

End Gestures.

(** ** Renders and the calls of [onChangeDate] *)

Section Renders.

Context {D : DateLib} {U : Utils} {T : Type} {E : ICalendarEventBase T} {Eff : Type}.

Implicit Types (props : CalendarContainerProps T Eff) (theme : Theme)
  (s : ContainerState) (d : Dayjs) (range : list Dayjs) (h : Hooks)
  (last : option Hooks).

Local Ltac mode_in_list :=
  repeat first [apply list_elem_of_here | apply list_elem_of_further].

Lemma dateRange_of_supported props d :
  mode props ∈ ["day"; "3days"; "week"; "month"; "custom"] ->
  Js.returns (dateRange props d).
Proof.
  intros Hin. destruct (dateRange_supported props d) as (Hm & Hw & H3 & Hd & Hc).
  unfold Js.returns. rewrite !elem_of_cons, elem_of_nil in Hin.
  destruct Hin as [Hin|[Hin|[Hin|[Hin|[Hin|[]]]]]]; eauto.
Qed.

Lemma dateRange_of_unsupported props d :
  mode props ∉ ["day"; "3days"; "week"; "month"; "custom"] ->
  dateRange props d = Js.Throw (Js.Error (unsupported_mode (mode props))).
Proof.
  intros Hnot. unfold dateRange.
  destruct (String.eqb_spec (mode props) "month") as [Heq|_];
    [exfalso; apply Hnot; rewrite Heq; mode_in_list|].
  destruct (String.eqb_spec (mode props) "week") as [Heq|_];
    [exfalso; apply Hnot; rewrite Heq; mode_in_list|].
  destruct (String.eqb_spec (mode props) "3days") as [Heq|_];
    [exfalso; apply Hnot; rewrite Heq; mode_in_list|].
  destruct (String.eqb_spec (mode props) "day") as [Heq|_];
    [exfalso; apply Hnot; rewrite Heq; mode_in_list|].
  destruct (String.eqb_spec (mode props) "custom") as [Heq|_];
    [exfalso; apply Hnot; rewrite Heq; mode_in_list|].
  reflexivity.
Qed.

(** What a render that returns leaves and returns. *)
Lemma render_leaves props theme last s frag calls h :
  render props theme last s = Js.Return (frag, calls, h) ->
  fst (dateRange_memo h) = dateRange_deps props s
  /\ onChangeDate_deps h
     = (array_id (snd (dateRange_memo h)), fn_id <$> onChangeDate props)
  /\ frag = fragment props theme (targetDate_cell s) (items (snd (dateRange_memo h))).
Proof.
  intros Hr. unfold render in Hr.
  destruct (useMemo_dateRange props last s) as [memo|e] eqn:Hmemo;
    simpl in Hr; [|discriminate].
  match type of Hr with
  | (?effect ≫= _) = _ => destruct effect; simpl in Hr
  end; [|discriminate].
  injection Hr as <- _ <-. simpl. split; [|split; reflexivity].
  unfold useMemo_dateRange in Hmemo. destruct last as [h0|].
  - destruct (bool_decide_reflect (fst (dateRange_memo h0) = dateRange_deps props s))
      as [Heq|_].
    + injection Hmemo as <-. exact Heq.
    + destruct (dateRange props (targetDate_cell s)); simpl in Hmemo;
        [|discriminate]. injection Hmemo as <-. reflexivity.
  - destruct (dateRange props (targetDate_cell s)); simpl in Hmemo;
      [|discriminate]. injection Hmemo as <-. reflexivity.
Qed.

(** A render in which the range is computed anew runs the effect on it. *)
Lemma render_computed_anew props theme last s range :
  committed (T:=T) (Eff:=Eff) last ->
  dateRange_changes props last s ->
  dateRange props (targetDate_cell s) = Js.Return range ->
  exists h,
    render props theme last s
    = calls ← onChangeDate_effect props range;
      mret (fragment props theme (targetDate_cell s) range, calls, h).
Proof.
  intros Hc Hchg Hrange.
  pose proof (committed_deps last Hc) as Hdeps.
  unfold render, useMemo_dateRange.
  destruct last as [h0|]; simpl in *.
  - rewrite bool_decide_eq_false_2 by exact Hchg.
    rewrite Hrange. simpl.
    rewrite bool_decide_eq_false_2; [eexists; reflexivity|].
    intros Heq. rewrite Heq in Hdeps. simpl in Hdeps. lia.
  - rewrite Hrange. simpl. eexists; reflexivity.
Qed.

(** X5. Every swipe or pan with [swipeEnabled] is reported: in the render
    that follows it, with the same props, the range is computed from the
    date it stored and, when that range is not empty, [onChangeDate] is
    called once with its first and last date. *)
Theorem navigation_is_reported props theme last s frag calls h f direction :
  render props theme last s = Js.Return (frag, calls, h) ->
  swipeEnabled props = true ->
  onChangeDate props = Some f ->
  Forall (fun handler =>
            let s' := handler props theme (targetDate_cell s) direction s in
            forall first rest,
              dateRange props (targetDate_cell s') = Js.Return (first :: rest) ->
              exists h',
                render props theme (Some h) s'
                = Js.Return
                    (fragment props theme (targetDate_cell s') (first :: rest),
                     [call f (toDate first, toDate (List.last rest first))], h'))
    (navigation_handlers (T:=T) (Eff:=Eff)).
Proof.
  intros Hr Hen Hf.
  destruct (render_leaves _ _ _ _ _ _ _ Hr) as (Hdeps & _ & _).
  pose proof (handlers_frame props theme (targetDate_cell s) direction s) as Hfr.
  assert (Hid : targetDate_id
                  (onSwipeHorizontalCallback props theme (targetDate_cell s) direction s)
                = S (targetDate_id s)).
  { unfold onSwipeHorizontalCallback. rewrite Hen.
    destruct (forward theme direction); reflexivity. }
  eapply Forall_impl; [exact Hfr|].
  intros handler [Hsame _] s' first rest Hrange.
  destruct (render_computed_anew props theme (Some h) s' (first :: rest))
    as [h' Hh'].
  - exact (committed_render _ _ _ _ _ _ _ Hr).
  - simpl. rewrite Hdeps. unfold dateRange_deps. subst s'. rewrite Hsame, Hid.
    intros Heq. injection Heq as Heq. lia.
  - exact Hrange.
  - exists h'. rewrite Hh'.
    rewrite (onChangeDate_effect_spec props f _ Hf). reflexivity.
Qed.

(** X6. A render that follows a render with the same props, in a state
    whose target date is the same object (after an animation, a layout
    report, or a swipe without [swipeEnabled]), calls no callback: the
    range of the last render is given to the children again and React keeps
    what it had. *)
Theorem rerender_is_quiet props theme theme' last s s' frag calls h :
  render props theme last s = Js.Return (frag, calls, h) ->
  targetDate_id s' = targetDate_id s ->
  render props theme' (Some h) s'
  = Js.Return (fragment props theme' (targetDate_cell s')
                 (items (snd (dateRange_memo h))), [], h).
Proof.
  intros Hr Hid.
  destruct (render_leaves _ _ _ _ _ _ _ Hr) as (Hdeps & Heff & _).
  unfold render, useMemo_dateRange. simpl.
  rewrite bool_decide_eq_true_2
    by (rewrite Hdeps; unfold dateRange_deps; rewrite Hid; reflexivity).
  simpl. rewrite bool_decide_eq_true_2 by exact Heff. simpl.
  destruct h as [memo deps]. simpl in *. rewrite Heff. reflexivity.
Qed.

(** X7. [onChangeDate] is called again when it is another function than in
    the last render, though the range is the array of the last render: with
    a range that is not empty, once, with its first and last date. *)
Theorem new_callback_is_called props theme last s frag calls h f first rest :
  render props theme last s = Js.Return (frag, calls, h) ->
  fn_id <$> onChangeDate props <> Some (fn_id f) ->
  items (snd (dateRange_memo h)) = first :: rest ->
  exists h',
    render (with_onChangeDate (Some f) props) theme (Some h) s
    = Js.Return
        (fragment (with_onChangeDate (Some f) props) theme (targetDate_cell s)
           (first :: rest),
         [call f (toDate first, toDate (List.last rest first))], h')
    /\ dateRange_memo h' = dateRange_memo h.
Proof.
  intros Hr Hne Hitems.
  destruct (render_leaves _ _ _ _ _ _ _ Hr) as (Hdeps & Heff & _).
  unfold render, useMemo_dateRange. simpl.
  rewrite bool_decide_eq_true_2 by exact Hdeps. simpl.
  rewrite bool_decide_eq_false_2.
  - rewrite (onChangeDate_effect_spec (with_onChangeDate (Some f) props) f _ eq_refl).
    rewrite Hitems. simpl. eexists. split; reflexivity.
  - rewrite Heff. intros Heq. injection Heq as Heq. exact (Hne Heq).
Qed.

(** X8. Without an [onChangeDate] a render in a supported mode returns and
    calls nothing, whatever the range, also an empty one. *)
Theorem no_callback_no_call props theme last s :
  onChangeDate props = None ->
  mode props ∈ ["day"; "3days"; "week"; "month"; "custom"] ->
  exists frag h, render props theme last s = Js.Return (frag, [], h).
Proof.
  intros Hnone Hmode.
  destruct (dateRange_of_supported props (targetDate_cell s) Hmode) as [range Hrange].
  assert (Heff : forall r, onChangeDate_effect props r = Js.Return []).
  { intros r. unfold onChangeDate_effect. rewrite Hnone. reflexivity. }
  unfold render, useMemo_dateRange, useEffect.
  destruct last as [h0|]; simpl.
  - destruct (bool_decide (fst (dateRange_memo h0) = dateRange_deps props s));
      [|rewrite Hrange]; simpl;
      match goal with
      | |- context [bool_decide ?P] => destruct (bool_decide P)
      end; rewrite ?Heff; simpl; eauto.
  - rewrite Hrange. simpl. rewrite Heff. simpl. eauto.
Qed.

(** X9. In a mode that is not supported, a render in which the range is
    computed (the first render, or one after a dependency of the range
    changed) throws the error that names the mode: nothing is rendered and
    no callback is called. *)
Theorem unsupported_mode_throws props theme last s :
  mode props ∉ ["day"; "3days"; "week"; "month"; "custom"] ->
  dateRange_changes props last s ->
  render props theme last s
  = Js.Throw (Js.Error (unsupported_mode (mode props))).
Proof.
  intros Hmode Hchg.
  pose proof (dateRange_of_unsupported props (targetDate_cell s) Hmode) as Hthrow.
  unfold render, useMemo_dateRange.
  destruct last as [h0|]; simpl in *.
  - rewrite bool_decide_eq_false_2 by exact Hchg. rewrite Hthrow. reflexivity.
  - rewrite Hthrow. reflexivity.
Qed.

(** X10. A container mounted with a [date] prop reports its range twice:
    the first render calls [onChangeDate] with the ends of the range of
    [dayjs(date)]; the effect on [date] then stores [dayjs(date)] again, a
    new object, and the render that follows computes the range anew and
    calls [onChangeDate] with the same ends. *)
Theorem mount_with_date_reports_twice props theme now date0 f first rest :
  date props = Some date0 ->
  onChangeDate props = Some f ->
  dateRange props (dayjs date0) = Js.Return (first :: rest) ->
  let s0 := initialState props now in
  let ends := call f (toDate first, toDate (List.last rest first)) in
  exists h h',
    render props theme None s0
    = Js.Return (fragment props theme (dayjs date0) (first :: rest), [ends], h)
    /\ render props theme (Some h) (date_effect props s0)
       = Js.Return (fragment props theme (dayjs date0) (first :: rest), [ends], h').
Proof.
  intros Hdate Hf Hrange s0 ends.
  assert (Hs0 : targetDate_cell s0 = dayjs date0).
  { unfold s0, initialState. rewrite Hdate. reflexivity. }
  assert (Hs1 : targetDate_cell (date_effect props s0) = dayjs date0
                /\ targetDate_id (date_effect props s0) = S (targetDate_id s0)).
  { unfold date_effect. rewrite Hdate. split; reflexivity. }
  destruct Hs1 as [Hs1 Hid].
  destruct (render_computed_anew props theme None s0 (first :: rest))
    as [h Hh]; [constructor|exact I|rewrite Hs0; exact Hrange|].
  rewrite (onChangeDate_effect_spec props f _ Hf), Hs0 in Hh.
  change (render props theme None s0
          = Js.Return (fragment props theme (dayjs date0) (first :: rest),
                       [ends], h)) in Hh.
  destruct (render_leaves _ _ _ _ _ _ _ Hh) as (Hdeps & _ & _).
  destruct (render_computed_anew props theme (Some h) (date_effect props s0)
              (first :: rest)) as [h' Hh'].
  - exact (committed_render _ _ _ _ _ _ _ Hh).
  - simpl. rewrite Hdeps. unfold dateRange_deps. rewrite Hid.
    intros Heq. injection Heq as Heq. lia.
  - rewrite Hs1. exact Hrange.
  - rewrite (onChangeDate_effect_spec props f _ Hf), Hs1 in Hh'.
    exists h, h'. split; [exact Hh|exact Hh'].
Qed.

(** X11. No event is lost or shown twice between the children: in [month]
    mode the events given to the body are a rearrangement of the events of
    the container, and in the other modes the events given to the body
    together with the all-day events given to the header are. *)
Theorem no_event_lost props theme d range :
  match fragment props theme d range with
  | MonthView _ body => monthBody_events body ≡ₚ events props
  | DaysView header body =>
      body_events body ++ CalendarHeader.allDayEvents header ≡ₚ events props
  end.
Proof.
  pose proof (filter_split_perm
                (fun event : T => isAllDayEvent (start event) (end_ event))
                (events props)) as Hperm.
  unfold fragment. destruct (String.eqb (mode props) "month"); simpl;
    rewrite (Permutation_app_comm (daytimeEvents props)); exact Hperm.
Qed.

(** X16. In a mode other than [month], the default header of the
    container has the cell of the [i]-th date of the range at place [i],
    and a tap on it calls the [onPressDateHeader] of the container once,
    with that date converted by [toDate]; the body is given the same
    range. *)
Theorem container_date_header_tap props theme d range i date f :
  mode props <> "month" ->
  onPressDateHeader props = Some f ->
  range !! i = Some date ->
  exists header body cell,
    fragment props theme d range = DaysView header body
    /\ body_dateRange body = range
    /\ CalendarHeader.dateCells (CalendarHeader._CalendarHeader header) !! i
       = Some cell
    /\ CalendarHeader.cell_date cell = date
    /\ tap (CalendarHeader.cell_touch cell) = [call f (toDate date)].
Proof.
  intros Hmode Hf Hi. apply String.eqb_neq in Hmode.
  unfold fragment. rewrite Hmode. eexists _, _, _.
  split; [reflexivity|]. split; [reflexivity|].
  split; [apply dateCells_lookup; exact Hi|].
  split; [reflexivity|].
  unfold tap, CalendarHeader.dateCell, CalendarHeader._onPressHeader. simpl.
  rewrite Hf. reflexivity.
Qed.

End Renders.

(** ** The all-day cells of the default header *)

Section AllDayCells.

Context {D : DateLib} {T : Type} {E : ICalendarEventBase T} {Eff Act : Type}.

Implicit Types (props : CalendarHeader.CalendarHeaderProps T Eff Act)
  (date : Dayjs) (event : T).

Lemma shown_texts props date (events : list T) :
  CalendarHeader.event_text
    <$> omap id (map (CalendarHeader.allDayEventElement props date) events)
  = title
    <$> List.filter (fun event => isBetween_day date (start event) (end_ event))
          events.
Proof.
  induction events as [|event events IH]; [reflexivity|].
  simpl. unfold CalendarHeader.allDayEventElement at 1.
  destruct (isBetween_day date (start event) (end_ event)); simpl.
  - f_equal. exact IH.
  - exact IH.
Qed.

(** X12. With [showAllDayEventCell], the all-day cell of a date of the
    range has one entry for each all-day event, and the texts it shows are
    the titles of the all-day events that the date is between the start and
    the end of, in the order of the events; an event is neither shown twice
    nor out of order. *)
Theorem allDay_cell_shows_covering_events props i date :
  CalendarHeader.dateRange props !! i = Some date ->
  CalendarHeader.showAllDayEventCell props = true ->
  exists cell entries,
    CalendarHeader.dateCells (CalendarHeader._CalendarHeader props) !! i = Some cell
    /\ CalendarHeader.allDayCell cell = Some entries
    /\ length entries = length (CalendarHeader.allDayEvents props)
    /\ CalendarHeader.event_text <$> omap id entries
       = title
         <$> List.filter
               (fun event => isBetween_day date (start event) (end_ event))
               (CalendarHeader.allDayEvents props).
Proof.
  intros Hi Hshow. eexists _, _.
  split; [apply dateCells_lookup; exact Hi|].
  unfold CalendarHeader.dateCell. simpl. rewrite Hshow.
  split; [reflexivity|].
  split; [apply length_map|]. apply shown_texts.
Qed.

(** X13. An all-day event shown in the cell of a date is never disabled,
    and a tap on it calls [onPressEvent] once, with that event; without an
    [onPressEvent] the tap calls nothing. *)
Theorem allDay_event_tap props i j date event :
  CalendarHeader.dateRange props !! i = Some date ->
  CalendarHeader.allDayEvents props !! j = Some event ->
  CalendarHeader.showAllDayEventCell props = true ->
  isBetween_day date (start event) (end_ event) = true ->
  exists cell element,
    CalendarHeader.dateCells (CalendarHeader._CalendarHeader props) !! i = Some cell
    /\ CalendarHeader.eventShown cell j = Some element
    /\ disabled (CalendarHeader.event_touch element) = false
    /\ tap (CalendarHeader.event_touch element)
       = match CalendarHeader.onPressEvent props with
         | Some f => [call f event]
         | None => []
         end.
Proof.
  intros Hi Hj Hshow Hbetween. eexists _, _.
  split; [apply dateCells_lookup; exact Hi|].
  rewrite (eventShown_dateCell props date j event Hj), Hshow.
  unfold CalendarHeader.allDayEventElement. rewrite Hbetween. simpl.
  split; [reflexivity|]. split; reflexivity.
Qed.

End AllDayCells.

(** ** The display flags *)

Section Flags.

Import DisplayFlags.

Lemma includes_elem_of (modes : list string) (mode : string) :
  includes modes mode = true <-> mode ∈ modes.
Proof.
  unfold includes. rewrite existsb_exists, list_elem_of_In. split.
  - intros (m & Hin & Heq). apply String.eqb_eq in Heq. subst m. exact Hin.
  - intros Hin. exists mode. split; [exact Hin|apply String.eqb_refl].
Qed.

(** X14. After the effect on the mode, each of the four flags whose list is
    not [null] is true exactly when the mode is in the list, and a flag
    whose list is [null] is as it was; the effect does nothing when the
    mode is [null]. *)
Theorem mode_effect_sets_flags (mode : string) (lists : ModeLists) (flags : Flags) :
  Forall (fun '(list_of, flag_of) =>
            match list_of lists with
            | Some modes =>
                flag_of (mode_effect (Some mode) lists flags) = true <-> mode ∈ modes
            | None =>
                flag_of (mode_effect (Some mode) lists flags) = flag_of flags
            end)
    [ (showWeekDayModes, showWeekDay);
      (showWeekDayInnerModes, showWeekDayInner);
      (showShortWeekDayModes, showShortWeekDay);
      (showDatesArrayStyleModes, showDatesArrayStyle) ]
  /\ mode_effect None lists flags = flags.
Proof.
  split; [|reflexivity].
  repeat constructor; simpl; unfold setIncludes;
    match goal with
    | |- context [match ?l with _ => _ end] => destruct l
    end; first [apply includes_elem_of | reflexivity].
Qed.

(** X15. With the default lists, in each of the five supported modes the
    effect on the mode leaves the flags at their initial values, whatever
    they were: [showWeekDay] true and the three others false. *)
Theorem default_lists_keep_initial_flags (mode : string) (flags : Flags) :
  mode ∈ ["day"; "3days"; "week"; "month"; "custom"] ->
  mode_effect (Some mode) defaultModeLists flags = initialFlags.
Proof.
  intros Hin. rewrite !elem_of_cons, elem_of_nil in Hin.
  destruct Hin as [->|[->|[->|[->|[->|[]]]]]]; reflexivity.
Qed.

End Flags.

(** ** The further properties on concrete inputs *)

Section FurtherConcrete.

Import Reference Examples.

(** Before any layout is reported, the animations of a mounted container
    leave the body where it is. *)
Lemma no_width_no_slide_witness :
  leftValue mounted = None
  /\ Forall (fun t => value_of t = presentLeftValue -> (toValue_of t == 0)%Q)
       (chains (started (moveNextBody (props_in "week") mounted))).
Proof.
  split; [reflexivity|].
  pose proof (no_width_no_slide (props_in "week") mounted I) as Hall.
  apply Forall_cons in Hall as [_ Hall].
  apply Forall_cons in Hall as [(new & Hnew & Hzero) _].
  rewrite Hnew. exact Hzero.
Defined.

(** In week mode, left to right, the left pan button stores the 22nd and
    the right one the 8th. *)
Lemma pan_buttons_navigate_witness :
  exists header body left right,
    fragment (props_in "week") ltr jan15 (getDatesInWeek jan15 0 "en")
    = DaysView header body
    /\ CalendarHeader.panLeftButton (CalendarHeader._CalendarHeader header)
       = Some left
    /\ CalendarHeader.panRightButton (CalendarHeader._CalendarHeader header)
       = Some right
    /\ targetDate_cell (onPress left mounted) = addDays jan15 7
    /\ targetDate_cell (onPress right mounted) = addDays jan15 (-7).
Proof.
  destruct (pan_buttons_navigate (D:=utc) (U:=utils) (props_in "week") ltr mounted
              (@getDatesInWeek utc utils jan15 0 "en"))
    as (header & body & Hfrag & _ & Hshown).
  - discriminate.
  - reflexivity.
  - destruct (Hshown eq_refl) as (left & right & Hl & Hr & _ & _ & Hgo & Hback).
    exists header, body, left, right. repeat split; assumption.
Defined.

(** After the first render in week mode, a tap on the left pan button is
    reported in the next render with the 17th and the 23rd of January. *)
Lemma navigation_is_reported_witness :
  exists h h',
    first_commit = Some h
    /\ render (props_in "week") ltr (Some h)
         (onPanLeft (props_in "week") ltr jan15 LEFT mounted)
       = Js.Return
           (fragment (props_in "week") ltr (addDays jan15 7)
              (getDatesInWeek (addDays jan15 7) 0 "en"),
            [ChangeDate (addDays jan15 2, addDays jan15 8)], h').
Proof.
  eexists. 
  pose proof (navigation_is_reported (D:=utc) (U:=utils) (props_in "week") ltr
                None mounted _ _ _ {| fn_id := 1; call := ChangeDate |} LEFT
                eq_refl eq_refl eq_refl) as Hall.
  unfold navigation_handlers in Hall.
  apply Forall_cons in Hall as [_ Hall].
  apply Forall_cons in Hall as [Hpan _].
  destruct (Hpan (addDays jan15 2) (tail (@getDatesInWeek utc utils (addDays jan15 7) 0 "en"))
              eq_refl) as [h' Hh'].
  exists h'. split; [reflexivity|exact Hh'].
Defined.

(** After the first render in week mode, the render that follows an
    animation calls nothing and keeps what React had. *)
Lemma rerender_is_quiet_witness :
  exists h,
    first_commit = Some h
    /\ render (props_in "week") rtl (Some h)
         (movePrevBody (props_in "week") mounted)
       = Js.Return
           (fragment (props_in "week") rtl jan15 (items (snd (dateRange_memo h))),
            [], h).
Proof.
  eexists. split; [reflexivity|].
  eapply (rerender_is_quiet (D:=utc) (U:=utils) (props_in "week") ltr rtl None
            mounted);
    reflexivity.
Defined.

(** After the first render in week mode, a render with another
    [onChangeDate] calls it with the 10th and the 16th of January. *)
Lemma new_callback_is_called_witness :
  exists h h',
    first_commit = Some h
    /\ render (with_onChangeDate (Some other_onChangeDate) (props_in "week")) ltr
         (Some h) mounted
       = Js.Return
           (fragment (with_onChangeDate (Some other_onChangeDate) (props_in "week"))
              ltr jan15 (getDatesInWeek jan15 0 "en"),
            [ChangeDate (addDays jan15 (-5), addDays jan15 1)], h').
Proof.
  eexists.
  destruct (new_callback_is_called (D:=utc) (U:=utils) (props_in "week") ltr None
              mounted _ _ _ other_onChangeDate (addDays jan15 (-5))
              (tail (@getDatesInWeek utc utils jan15 0 "en")) eq_refl)
    as (h' & Hh' & _).
  - discriminate.
  - reflexivity.
  - exists h'. split; [reflexivity|exact Hh'].
Defined.

(** Without an [onChangeDate], the first render in week mode calls nothing. *)
Lemma no_callback_no_call_witness :
  exists frag h,
    render (locked "week") ltr None mounted = Js.Return (frag, [], h).
Proof.
  apply (no_callback_no_call (D:=utc) (U:=utils) (locked "week") ltr None mounted
           eq_refl).
  do 2 apply list_elem_of_further. apply list_elem_of_here.
Defined.

(** The first render in the mode [year] throws. *)
Lemma unsupported_mode_throws_witness :
  render (props_in "year") ltr None mounted
  = Js.Throw (Js.Error (unsupported_mode "year")).
Proof.
  apply (unsupported_mode_throws (D:=utc) (U:=utils) (props_in "year") ltr None
           mounted); [|exact I].
  repeat (apply not_elem_of_cons; split; [discriminate|]). apply not_elem_of_nil.
Defined.

(** Mounted in week mode with the 15th as [date], the container reports the
    10th and the 16th in its first render and again in the second. *)
Lemma mount_with_date_reports_twice_witness :
  exists h h',
    render (dated "week") ltr None (initialState (dated "week") feb1)
    = Js.Return
        (fragment (dated "week") ltr jan15 (getDatesInWeek jan15 0 "en"),
         [ChangeDate (addDays jan15 (-5), addDays jan15 1)], h)
    /\ render (dated "week") ltr (Some h)
         (date_effect (dated "week") (initialState (dated "week") feb1))
       = Js.Return
           (fragment (dated "week") ltr jan15 (getDatesInWeek jan15 0 "en"),
            [ChangeDate (addDays jan15 (-5), addDays jan15 1)], h').
Proof.
  exact (mount_with_date_reports_twice (D:=utc) (U:=utils) (dated "week") ltr feb1
           jan15 {| fn_id := 1; call := ChangeDate |} (addDays jan15 (-5))
           (tail (@getDatesInWeek utc utils jan15 0 "en"))
           eq_refl eq_refl eq_refl).
Defined.

(** In the week of the 15th, the cell of the 16th shows the day off and
    that of the 14th shows nothing. *)
Lemma allDay_cell_shows_covering_events_witness :
  (exists cell entries,
     CalendarHeader.dateCells (CalendarHeader._CalendarHeader week_header) !! 6%nat
     = Some cell
     /\ CalendarHeader.allDayCell cell = Some entries
     /\ CalendarHeader.event_text <$> omap id entries = ["Day off"])
  /\ (exists cell entries,
        CalendarHeader.dateCells (CalendarHeader._CalendarHeader week_header) !! 4%nat
        = Some cell
        /\ CalendarHeader.allDayCell cell = Some entries
        /\ CalendarHeader.event_text <$> omap id entries = []).
Proof.
  split.
  - destruct (allDay_cell_shows_covering_events (D:=utc) week_header 6
                (addDays jan15 1) eq_refl eq_refl)
      as (cell & entries & Hcell & Hentries & _ & Htexts).
    exists cell, entries. repeat split; assumption.
  - destruct (allDay_cell_shows_covering_events (D:=utc) week_header 4
                (addDays jan15 (-1)) eq_refl eq_refl)
      as (cell & entries & Hcell & Hentries & _ & Htexts).
    exists cell, entries. repeat split; assumption.
Defined.

(** A tap on the day off in the cell of the 15th calls [onPressEvent] with
    the day off. *)
Lemma allDay_event_tap_witness :
  exists cell element,
    CalendarHeader.dateCells (CalendarHeader._CalendarHeader week_header) !! 5%nat
    = Some cell
    /\ CalendarHeader.eventShown cell 0 = Some element
    /\ tap (CalendarHeader.event_touch element) = [PressEvent dayOff].
Proof.
  destruct (allDay_event_tap (D:=utc) (E:=event) week_header 5 0 jan15 dayOff
              eq_refl eq_refl eq_refl eq_refl)
    as (cell & element & Hcell & Hshown & _ & Htap).
  exists cell, element. repeat split; assumption.
Defined.

(** In week mode with the default lists the flags are the initial ones. *)
Lemma default_lists_keep_initial_flags_witness :
  DisplayFlags.mode_effect (Some "week") DisplayFlags.defaultModeLists
    {| DisplayFlags.showWeekDay := false; DisplayFlags.showWeekDayInner := true;
       DisplayFlags.showShortWeekDay := true;
       DisplayFlags.showDatesArrayStyle := true |}
  = DisplayFlags.initialFlags.
Proof.
  apply default_lists_keep_initial_flags.
  do 2 apply list_elem_of_further. apply list_elem_of_here.
Defined.

(** In week mode a tap on the sixth date header calls [onPressDateHeader]
    with the 15th. *)
Lemma container_date_header_tap_witness :
  exists header body cell,
    fragment (props_in "week") ltr jan15 (getDatesInWeek jan15 0 "en")
    = DaysView header body
    /\ CalendarHeader.dateCells (CalendarHeader._CalendarHeader header) !! 5%nat
       = Some cell
    /\ tap (CalendarHeader.cell_touch cell) = [PressDateHeader jan15].
Proof.
  destruct (container_date_header_tap (D:=utc) (U:=utils) (props_in "week") ltr
              jan15 (@getDatesInWeek utc utils jan15 0 "en") 5 jan15
              {| fn_id := 2; call := PressDateHeader |})
    as (header & body & cell & Hfrag & _ & Hcell & _ & Htap).
  - discriminate.
  - reflexivity.
  - reflexivity.
  - exists header, body, cell. repeat split; assumption.
Defined.

End FurtherConcrete.
